(** * GeoNature: the [pnx-geojson] map overlay component

    A shallow embedding of
    [frontend/src/app/GN2CommonModule/map/geojson/geojson.component.ts]:
    the component that shows the GeoJSON passed as input on the Leaflet
    map of the [MapService], replaces the shown layer when the input
    changes, zooms on the new layer and publishes it on an rxjs
    [Subject].

    The TypeScript methods mutate the component, the map service and
    Leaflet objects, and may throw.  They are embedded as computations of
    a state-and-exception monad over a [Store] that holds those objects.
    Leaflet and rxjs are third-party libraries and the [MapService] is
    not part of the sources at hand: the operations the component calls
    on them are modelled from their contract. *)

From stdpp Require Import list strings.

(** Identity of a Leaflet layer object ([L.stamp]). *)
Abbreviation Stamp := nat.

(** Identity of a subscriber of the notification channel. *)
Abbreviation Observer := nat.

(** What the component treats as opaque: the payload, the values of
    TypeScript type [any] that it forwards, Leaflet's bounds and views,
    and the functions of the collaborators on them. *)
Class Collaborators := {
  GeoJSON : Type;
  Any : Type;
  LatLngBounds : Type;
  View : Type;
  (** payloads on which the layer factory fails *)
  malformed : GeoJSON -> bool;
  (** bounding box of the features of a payload; [None] when there is no
      feature with a computable extent *)
  extentOf : GeoJSON -> option LatLngBounds;
  (** [LatLngBounds.extend] *)
  extend : LatLngBounds -> LatLngBounds -> LatLngBounds;
  (** centre and zoom that [fitBounds] chooses for valid bounds *)
  viewOf : LatLngBounds -> View
}.

(** A concrete instance, on which the statements are run: a payload is
    the list of the abscissas of its points; a negative abscissa is
    malformed; bounds are an interval. *)
Definition demo_extent (p : list Z) : option (Z * Z) :=
  match p with
  | [] => None
  | x :: xs => Some (foldr Z.min x xs, foldr Z.max x xs)
  end.

Definition demo_malformed (p : list Z) : bool :=
  bool_decide (Exists (λ x, (x < 0)%Z) p).

Definition demo_extend (a b : Z * Z) : Z * Z :=
  (Z.min (fst a) (fst b), Z.max (snd a) (snd b)).

Definition demo : Collaborators := {|
  GeoJSON := list Z;
  Any := string;
  LatLngBounds := Z * Z;
  View := Z * Z;
  malformed := demo_malformed;
  extentOf := demo_extent;
  extend := demo_extend;
  viewOf := λ b, b
|}.

(** Exceptions a call can raise. *)
Inductive JsError :=
| TypeError      (* member access on [undefined] *)
| FactoryError   (* the layer factory rejects the payload *)
| BoundsError.   (* [fitBounds]: 'Bounds are not valid.' *)

(** ** Leaflet *)

Module Leaflet.
Section Model.
Context `{Collaborators}.

(** Modelled from the spec: the layer objects of Leaflet (an external
    library, not in the sources).  A layer built by the factory keeps
    the arguments it was built from; a [FeatureGroup] holds the stamps
    of the layers added to it. *)
Inductive Layer :=
| GeoJsonLayer (data : GeoJSON) (asCluster : option bool)
               (onEachFeature : option Any)
| FeatureGroup (members : list Stamp).

(** The map instance, once it has a view: the layers attached to it
    ([_layers], without repetition) and its viewport. *)
Record Map := { _layers : list Stamp; viewport : View }.

(** The application has one Leaflet map; a handle on it is either
    [undefined] ([None]) or refers to that map. *)
Inductive MapRef := TheMap.

(** All Leaflet objects: [objects !! i] is the object of stamp [i],
    a new object takes the next stamp. *)
Record World := { objects : list Layer; surface : Map }.

Definition withLayers (ls : list Stamp) (w : World) : World :=
  {| objects := objects w;
     surface := {| _layers := ls; viewport := viewport (surface w) |} |}.

Definition membersOf (w : World) (l : Stamp) : list Stamp :=
  match objects w !! l with
  | Some (FeatureGroup ms) => ms
  | _ => []
  end.

Definition hasLayer (w : World) (l : Stamp) : bool :=
  bool_decide (l ∈ _layers (surface w)).

Definition attach (ls : list Stamp) (l : Stamp) : list Stamp :=
  if bool_decide (l ∈ ls) then ls else ls ++ [l].

(** Modelled from the spec: [addLayer(layer)] of the Map Surface Handle
    contract (Leaflet's [Map.addLayer], not in the sources).  Nothing
    happens when the layer is already on the map; a group brings its
    members along. *)
Definition Map_addLayer (l : Stamp) (w : World) : World :=
  if hasLayer w l then w
  else withLayers (foldl attach (_layers (surface w) ++ [l]) (membersOf w l)) w.

(** Modelled from the spec: [removeLayer(layer)] of the Map Surface
    Handle contract (Leaflet's [Map.removeLayer], not in the sources).
    Only the given layer (and, for a group, its members) leaves the
    map; a group that holds the layer stays attached. *)
Definition Map_removeLayer (l : Stamp) (w : World) : World :=
  if hasLayer w l
  then withLayers (filter (λ x, x ∉ l :: membersOf w l) (_layers (surface w))) w
  else w.

(** A new layer object for a payload, as [L.geoJSON] makes one. *)
Definition newGeoJSON (data : GeoJSON) (asCluster : option bool)
    (onEachFeature : option Any) (w : World) : Stamp * World :=
  (length (objects w),
   {| objects := objects w ++ [GeoJsonLayer data asCluster onEachFeature];
      surface := surface w |}).

(** [new L.FeatureGroup()]: a new, empty group. *)
Definition newFeatureGroup (w : World) : Stamp * World :=
  (length (objects w),
   {| objects := objects w ++ [FeatureGroup []]; surface := surface w |}).

(** Modelled from the spec: Leaflet's [FeatureGroup.addLayer] (not in
    the sources): the layer joins the group, and the map too when the
    group is on the map. *)
Definition FeatureGroup_addLayer (g l : Stamp) (w : World) : World :=
  match objects w !! g with
  | Some (FeatureGroup ms) =>
      if bool_decide (l ∈ ms) then w
      else
        let w' := {| objects := <[g := FeatureGroup (ms ++ [l])]> (objects w);
                     surface := surface w |} in
        if hasLayer w g then Map_addLayer l w' else w'
  | _ => w
  end.

Definition layerBounds (w : World) (l : Stamp) : option LatLngBounds :=
  match objects w !! l with
  | Some (GeoJsonLayer d _ _) => extentOf d
  | _ => None
  end.

Definition widen (acc b : option LatLngBounds) : option LatLngBounds :=
  match acc, b with
  | Some a, Some b => Some (extend a b)
  | None, b => b
  | a, None => a
  end.

(** Modelled from the spec: Leaflet's [FeatureGroup.getBounds] (not in
    the sources): the bounds of the members, [None] (invalid bounds)
    when no member has an extent. *)
Definition getBounds (w : World) (g : Stamp) : option LatLngBounds :=
  foldl (λ acc l, widen acc (layerBounds w l)) None (membersOf w g).

(** Modelled from the spec: [fitBounds(extent) raises BoundsError on
    empty extent] of the Map Surface Handle contract (Leaflet's
    [Map.fitBounds], not in the sources); [None] is the raise. *)
Definition fitBounds (b : option LatLngBounds) (w : World) : option World :=
  match b with
  | Some b =>
      Some {| objects := objects w;
              surface := {| _layers := _layers (surface w); viewport := viewOf b |} |}
  | None => None
  end.

End Model.
End Leaflet.

(** ** rxjs *)

Module Rx.

(** Modelled from the spec: the Change Notification Channel (rxjs's
    [Subject], an external library): the subscribers in subscription
    order, and whether the subject has been completed. *)
Record Subject := { observers : list Observer; isStopped : bool }.

(** [new Subject()] *)
Definition newSubject : Subject := {| observers := []; isStopped := false |}.

(** [subscribe]: a completed subject takes no subscriber any more. *)
Definition subscribe (o : Observer) (s : Subject) : Subject :=
  if isStopped s then s
  else {| observers := observers s ++ [o]; isStopped := false |}.

(** [complete]: the close of the channel.  The component never calls
    it. *)
Definition complete (s : Subject) : Subject :=
  {| observers := []; isStopped := true |}.

End Rx.

(** ** The map service *)

Module MapService.

(** The fields of the [MapService] that the component uses: the
    Leaflet map (set by the map component, [undefined] before) and the
    group of the overlay. *)
Record t := {
  map : option Leaflet.MapRef;
  layerGroup : option Stamp
}.

Definition set_layerGroup (g : option Stamp) (ms : t) : t :=
  {| map := map ms; layerGroup := g |}.

End MapService.

(** ** The component *)

Module GeojsonComponent.
Section Fields.
Context `{Collaborators}.

(** The fields of the class, in the order of their declaration. *)
Record t := {
  map : option Leaflet.MapRef;
  currentGeojson : option Stamp;
  layerGroup : option Stamp;
  geojson : option GeoJSON;          (* @Input() *)
  onEachFeature : option Any;        (* @Input() *)
  style : option Any;                (* @Input() *)
  zoomOnLayer : bool;                (* @Input(), = true *)
  asCluste : bool;                   (* @Input(), = false *)
  geojsonCharged : Rx.Subject
}.

(** [this.asCluster]: the class declares no property of this name and
    assigns none, so reading it gives [undefined]. *)
Definition asCluster (c : t) : option bool := None.

(** The component as the constructor leaves it. *)
Definition new : t := {|
  map := None;
  currentGeojson := None;
  layerGroup := None;
  geojson := None;
  onEachFeature := None;
  style := None;
  zoomOnLayer := true;
  asCluste := false;
  geojsonCharged := Rx.newSubject
|}.

Definition set_map (m : option Leaflet.MapRef) (c : t) : t :=
  {| map := m; currentGeojson := currentGeojson c; layerGroup := layerGroup c;
     geojson := geojson c; onEachFeature := onEachFeature c; style := style c;
     zoomOnLayer := zoomOnLayer c; asCluste := asCluste c;
     geojsonCharged := geojsonCharged c |}.

Definition set_currentGeojson (l : option Stamp) (c : t) : t :=
  {| map := map c; currentGeojson := l; layerGroup := layerGroup c;
     geojson := geojson c; onEachFeature := onEachFeature c; style := style c;
     zoomOnLayer := zoomOnLayer c; asCluste := asCluste c;
     geojsonCharged := geojsonCharged c |}.

Definition set_geojson (g : option GeoJSON) (c : t) : t :=
  {| map := map c; currentGeojson := currentGeojson c; layerGroup := layerGroup c;
     geojson := g; onEachFeature := onEachFeature c; style := style c;
     zoomOnLayer := zoomOnLayer c; asCluste := asCluste c;
     geojsonCharged := geojsonCharged c |}.

Definition set_asCluste (b : bool) (c : t) : t :=
  {| map := map c; currentGeojson := currentGeojson c; layerGroup := layerGroup c;
     geojson := geojson c; onEachFeature := onEachFeature c; style := style c;
     zoomOnLayer := zoomOnLayer c; asCluste := b;
     geojsonCharged := geojsonCharged c |}.

Definition set_geojsonCharged (s : Rx.Subject) (c : t) : t :=
  {| map := map c; currentGeojson := currentGeojson c; layerGroup := layerGroup c;
     geojson := geojson c; onEachFeature := onEachFeature c; style := style c;
     zoomOnLayer := zoomOnLayer c; asCluste := asCluste c;
     geojsonCharged := s |}.

End Fields.
End GeojsonComponent.

Section Overlay.
Context `{Collaborators}.

(** Everything a method of the component can read or write.  The last
    three fields record what an outside observer sees: the lines
    written on the console, the notifications delivered (the value and
    the subscribers reached, one entry per [next] on an open subject),
    and the Leaflet world after each of its mutations. *)
Record Store := {
  this : GeojsonComponent.t;
  mapservice : MapService.t;
  leaflet : Leaflet.World;
  console : list string;
  emissions : list (Stamp * list Observer);
  history : list Leaflet.World
}.

(** How a call ends. *)
Inductive Completion (A : Type) :=
| Normal (a : A)
| Throw (e : JsError).
Global Arguments Normal {A} a.
Global Arguments Throw {A} e.

Definition M (A : Type) : Type := Store -> Completion A * Store.

Definition ret {A} (a : A) : M A := λ s, (Normal a, s).

Definition bind {A B} (c : M A) (k : A -> M B) : M B :=
  λ s, match c s with
       | (Normal a, s') => k a s'
       | (Throw e, s') => (Throw e, s')
       end.

Notation "'let!' x ':=' c1 'in' c2" := (bind c1 (λ x, c2))
  (at level 10, x name, c1 at level 100, c2 at level 200).

Definition throw {A} (e : JsError) : M A := λ s, (Throw e, s).

(** [try { body } catch (error) { handler }] *)
Definition try_catch (body : M unit) (handler : JsError -> M unit) : M unit :=
  λ s, match body s with
       | (Normal a, s') => (Normal a, s')
       | (Throw e, s') => handler e s'
       end.

Definition read {A} (f : Store -> A) : M A := λ s, (Normal (f s), s).

(** Access to a member of [o]: a [TypeError] when [o] is [undefined]. *)
Definition deref {A} (o : option A) : M A :=
  match o with
  | Some a => ret a
  | None => throw TypeError
  end.

Definition update_this (f : GeojsonComponent.t -> GeojsonComponent.t) : M unit :=
  λ s, (Normal tt,
        {| this := f (this s); mapservice := mapservice s; leaflet := leaflet s;
           console := console s; emissions := emissions s; history := history s |}).

Definition update_mapservice (f : MapService.t -> MapService.t) : M unit :=
  λ s, (Normal tt,
        {| this := this s; mapservice := f (mapservice s); leaflet := leaflet s;
           console := console s; emissions := emissions s; history := history s |}).

(** A mutation of the Leaflet world; the new world is recorded. *)
Definition mutate (w : Leaflet.World) : M unit :=
  λ s, (Normal tt,
        {| this := this s; mapservice := mapservice s; leaflet := w;
           console := console s; emissions := emissions s;
           history := history s ++ [w] |}).

(** [console.log(msg)] *)
Definition console_log (msg : string) : M unit :=
  λ s, (Normal tt,
        {| this := this s; mapservice := mapservice s; leaflet := leaflet s;
           console := console s ++ [msg]; emissions := emissions s;
           history := history s |}).

(** Modelled from the spec: [emit(layer)] of the Change Notification
    Channel (rxjs's [Subject.next], not in the sources): the value goes
    to all current subscribers, in subscription order; on a completed
    subject nothing happens. *)
Definition Subject_next (sub : Rx.Subject) (v : Stamp) : M unit :=
  λ s, (Normal tt,
        if Rx.isStopped sub then s
        else {| this := this s; mapservice := mapservice s; leaflet := leaflet s;
                console := console s;
                emissions := emissions s ++ [(v, Rx.observers sub)];
                history := history s |}).

(** Modelled from the spec: the Layer Factory
    [build(payload, clusterFlag, featureCallback) -> RenderedLayer]
    ([MapService.createGeojson], whose source is not at hand): a new
    layer object made from the arguments, with no effect on the map; it
    fails on a malformed payload. *)
Definition createGeojson (geojson : GeoJSON) (asCluster : option bool)
    (onEachFeature : option Any) : M Stamp :=
  if malformed geojson then throw FactoryError
  else
    let! w := read leaflet in
    let! _ := mutate (snd (Leaflet.newGeoJSON geojson asCluster onEachFeature w)) in
    ret (fst (Leaflet.newGeoJSON geojson asCluster onEachFeature w)).

(** [this.mapservice.map.m(...)]: the map on which [m] is called. *)
Definition mapservice_map : M Leaflet.MapRef :=
  let! ms := read mapservice in deref (MapService.map ms).

(** [map.addLayer(l)], [map.removeLayer(l)], [group.addLayer(l)] *)
Definition Map_addLayer (m : Leaflet.MapRef) (l : Stamp) : M unit :=
  let! w := read leaflet in mutate (Leaflet.Map_addLayer l w).

Definition Map_removeLayer (m : Leaflet.MapRef) (l : Stamp) : M unit :=
  let! w := read leaflet in mutate (Leaflet.Map_removeLayer l w).

Definition FeatureGroup_addLayer (g l : Stamp) : M unit :=
  let! w := read leaflet in mutate (Leaflet.FeatureGroup_addLayer g l w).

(** [new L.FeatureGroup()] *)
Definition new_FeatureGroup : M Stamp :=
  let! w := read leaflet in
  let! _ := mutate (snd (Leaflet.newFeatureGroup w)) in
  ret (fst (Leaflet.newFeatureGroup w)).

(** [map.fitBounds(b)] *)
Definition Map_fitBounds (m : Leaflet.MapRef) (b : option LatLngBounds) : M unit :=
  let! w := read leaflet in
  match Leaflet.fitBounds b w with
  | Some w' => mutate w'
  | None => throw BoundsError
  end.

(** [ngOnInit() { this.map = this.mapservice.map; }] *)
Definition ngOnInit : M unit :=
  let! ms := read mapservice in
  update_this (GeojsonComponent.set_map (MapService.map ms)).

(** [loadGeojson(geojson)]:
<<
  this.currentGeojson = this.mapservice.createGeojson(
    geojson, this.asCluster, this.onEachFeature);
  this.geojsonCharged.next(this.currentGeojson);
  this.mapservice.layerGroup = new L.FeatureGroup();
  this.mapservice.map.addLayer(this.mapservice.layerGroup);
  this.mapservice.layerGroup.addLayer(this.currentGeojson);
>> *)
Definition loadGeojson (geojson : GeoJSON) : M unit :=
  let! c := read this in
  let! layer := createGeojson geojson (GeojsonComponent.asCluster c)
                              (GeojsonComponent.onEachFeature c) in
  let! _ := update_this (GeojsonComponent.set_currentGeojson (Some layer)) in
  let! c := read this in
  let! cur := deref (GeojsonComponent.currentGeojson c) in
  let! _ := Subject_next (GeojsonComponent.geojsonCharged c) cur in
  let! group := new_FeatureGroup in
  let! _ := update_mapservice (MapService.set_layerGroup (Some group)) in
  let! m := mapservice_map in
  let! ms := read mapservice in
  let! g := deref (MapService.layerGroup ms) in
  let! _ := Map_addLayer m g in
  let! ms := read mapservice in
  let! g := deref (MapService.layerGroup ms) in
  let! c := read this in
  let! cur := deref (GeojsonComponent.currentGeojson c) in
  FeatureGroup_addLayer g cur.

(** One entry of the [changes] object of Angular. *)
Record SimpleChange := {
  previousValue : option GeoJSON;
  currentValue : option GeoJSON
}.

(** The [changes] object: the entry of the [geojson] input, when that
    input changed, and the names of the other inputs that changed. *)
Record SimpleChanges := {
  changes_geojson : option SimpleChange;
  changes_others : list string
}.

Definition defined {A} (o : option A) : bool :=
  match o with Some _ => true | None => false end.

(** [ngOnChanges(changes)]:
<<
  if (changes.geojson && changes.geojson.currentValue !== undefined) {
    if (this.currentGeojson !== undefined) {
      this.mapservice.map.removeLayer(this.currentGeojson);
    }
    this.loadGeojson(changes.geojson.currentValue);
    // zoom on layer extend after fisrt search
    if (changes.geojson.previousValue !== undefined && this.zoomOnLayer) {
      // try to fit bound on layer. catch error if no layer in feature group
      try {
        this.map.fitBounds(this.mapservice.layerGroup.getBounds());
      } catch (error) {
        console.log('no layer in featuregroup');
      }
    }
  }
>> *)
Definition ngOnChanges (changes : SimpleChanges) : M unit :=
  match changes_geojson changes with
  | Some change =>
      match currentValue change with
      | Some payload =>
          let! c := read this in
          let! _ := match GeojsonComponent.currentGeojson c with
                    | Some old => let! m := mapservice_map in Map_removeLayer m old
                    | None => ret tt
                    end in
          let! _ := loadGeojson payload in
          let! c := read this in
          if defined (previousValue change) && GeojsonComponent.zoomOnLayer c
          then
            try_catch
              (let! m := deref (GeojsonComponent.map c) in
               let! ms := read mapservice in
               let! g := deref (MapService.layerGroup ms) in
               let! w := read leaflet in
               Map_fitBounds m (Leaflet.getBounds w g))
              (λ error, console_log "no layer in featuregroup")
          else ret tt
      | None => ret tt
      end
  | None => ret tt
  end.

(** ** The host *)

(** The lifecycle events that Angular sends to a component. *)
Inductive Hook :=
| OnChanges (changes : SimpleChanges)
| OnInit
| OnDestroy.

(** Angular calls the hook of the event when the class has one.  The
    class implements [OnInit] and [OnChanges] and has no [ngOnDestroy]:
    its destruction runs no code of the component. *)
Definition lifecycle (h : Hook) : M unit :=
  match h with
  | OnChanges changes => ngOnChanges changes
  | OnInit => ngOnInit
  | OnDestroy => ret tt
  end.

(** A new value of the [geojson] input: Angular writes the property and
    calls [ngOnChanges] with the previous and the new value. *)
Definition input_geojson (v : option GeoJSON) : M unit :=
  let! c := read this in
  let! _ := update_this (GeojsonComponent.set_geojson v) in
  ngOnChanges {| changes_geojson :=
                   Some {| previousValue := GeojsonComponent.geojson c;
                           currentValue := v |};
                 changes_others := [] |}.

(** A sequence of payload updates; an exception ends it. *)
Fixpoint updates (payloads : list GeoJSON) : M unit :=
  match payloads with
  | [] => ret tt
  | p :: rest => let! _ := input_geojson (Some p) in updates rest
  end.

(** The events of a component's life, one after the other.  An
    exception in a hook goes to the error handler of Angular and the
    next event is dispatched on the store as the hook left it. *)
Fixpoint host (events : list Hook) (s : Store) : Store :=
  match events with
  | [] => s
  | h :: rest => host rest (snd (lifecycle h s))
  end.

(** [currentGeoJson$.subscribe(o)], by an outside observer. *)
Definition subscribe (o : Observer) : M unit :=
  update_this (λ c, GeojsonComponent.set_geojsonCharged
                      (Rx.subscribe o (GeojsonComponent.geojsonCharged c)) c).

(** The layers on the map that are rendered layers, and those that are
    groups. *)
Definition isGroup (w : Leaflet.World) (l : Stamp) : bool :=
  match Leaflet.objects w !! l with
  | Some (Leaflet.FeatureGroup _) => true
  | _ => false
  end.

Definition isRendered (w : Leaflet.World) (l : Stamp) : bool :=
  match Leaflet.objects w !! l with
  | Some (Leaflet.GeoJsonLayer _ _ _) => true
  | _ => false
  end.

Definition onMap (w : Leaflet.World) : list Stamp :=
  Leaflet._layers (Leaflet.surface w).

Definition groupsOnMap (w : Leaflet.World) : list Stamp :=
  filter (λ l, isGroup w l = true) (onMap w).

Definition renderedOnMap (w : Leaflet.World) : list Stamp :=
  filter (λ l, isRendered w l = true) (onMap w).

(** The references held in the store are sound: a layer on the map is
    the stamp of an object, and the current layer is a layer that the
    factory built. *)
Definition valid (s : Store) : Prop :=
  Forall (λ l, l < length (Leaflet.objects (leaflet s))) (onMap (leaflet s)) ∧
  match GeojsonComponent.currentGeojson (this s) with
  | Some l => isRendered (leaflet s) l = true
  | None => True
  end.

(** The change record of a payload update. *)
Definition payload_change (prev : option GeoJSON) (p : GeoJSON) : SimpleChanges :=
  {| changes_geojson := Some {| previousValue := prev; currentValue := Some p |};
     changes_others := [] |}.

(** The store that [loadGeojson] leaves when the map is there and the
    factory accepts the payload (lemma [loadGeojson_bound]): the four
    mutations of the Leaflet world, in order. *)
Definition loaded (p : GeoJSON) (s : Store) : Store :=
  let c := this s in
  let sub := GeojsonComponent.geojsonCharged c in
  let made := Leaflet.newGeoJSON p (GeojsonComponent.asCluster c)
                                 (GeojsonComponent.onEachFeature c) (leaflet s) in
  let grp := Leaflet.newFeatureGroup (snd made) in
  let w3 := Leaflet.Map_addLayer (fst grp) (snd grp) in
  let w4 := Leaflet.FeatureGroup_addLayer (fst grp) (fst made) w3 in
  {| this := GeojsonComponent.set_currentGeojson (Some (fst made)) c;
     mapservice := MapService.set_layerGroup (Some (fst grp)) (mapservice s);
     leaflet := w4;
     console := console s;
     emissions := emissions s ++
                  (if Rx.isStopped sub then [] else [(fst made, Rx.observers sub)]);
     history := history s ++ [snd made; snd grp; w3; w4] |}.

(** The store after the detachment of the layer [old]. *)
Definition detached (old : Stamp) (s : Store) : Store :=
  {| this := this s; mapservice := mapservice s;
     leaflet := Leaflet.Map_removeLayer old (leaflet s);
     console := console s; emissions := emissions s;
     history := history s ++ [Leaflet.Map_removeLayer old (leaflet s)] |}.

(** A store in which the component was just constructed, around a map
    service and a Leaflet world. *)
Definition fresh (ms : MapService.t) (w : Leaflet.World) : Store :=
  {| this := GeojsonComponent.new; mapservice := ms; leaflet := w;
     console := []; emissions := []; history := [] |}.

(** The store after [console.log(msg)]. *)
Definition logged (msg : string) (s : Store) : Store :=
  {| this := this s; mapservice := mapservice s; leaflet := leaflet s;
     console := console s ++ [msg]; emissions := emissions s;
     history := history s |}.

(** The store after a mutation of the Leaflet world into [w]. *)
Definition mutated (w : Leaflet.World) (s : Store) : Store :=
  {| this := this s; mapservice := mapservice s; leaflet := w;
     console := console s; emissions := emissions s;
     history := history s ++ [w] |}.

(** The store after the step that detaches the current layer, when
    there is one. *)
Definition released (s : Store) : Store :=
  match GeojsonComponent.currentGeojson (this s) with
  | Some old => detached old s
  | None => s
  end.

(** The store after the zoom step of [ngOnChanges], which always
    completes (lemma [ngOnChanges_bound]). *)
Definition reframed (prev : option GeoJSON) (s : Store) : Store :=
  if defined prev && GeojsonComponent.zoomOnLayer (this s) then
    match GeojsonComponent.map (this s), MapService.layerGroup (mapservice s) with
    | Some _, Some g =>
        match Leaflet.fitBounds (Leaflet.getBounds (leaflet s) g) (leaflet s) with
        | Some w' => mutated w' s
        | None => logged "no layer in featuregroup" s
        end
    | _, _ => logged "no layer in featuregroup" s
    end
  else s.

(** The store in which [loadGeojson] throws when the map service has no
    map yet: the layer is made, kept and published, the group is made
    and kept, and nothing is attached. *)
Definition stranded (p : GeoJSON) (s : Store) : Store :=
  let c := this s in
  let sub := GeojsonComponent.geojsonCharged c in
  let made := Leaflet.newGeoJSON p (GeojsonComponent.asCluster c)
                                 (GeojsonComponent.onEachFeature c) (leaflet s) in
  let grp := Leaflet.newFeatureGroup (snd made) in
  {| this := GeojsonComponent.set_currentGeojson (Some (fst made)) c;
     mapservice := MapService.set_layerGroup (Some (fst grp)) (mapservice s);
     leaflet := snd grp;
     console := console s;
     emissions := emissions s ++
                  (if Rx.isStopped sub then [] else [(fst made, Rx.observers sub)]);
     history := history s ++ [snd made; snd grp] |}.

(** The store after Angular has written the [geojson] input. *)
Definition fed (v : option GeoJSON) (s : Store) : Store :=
  {| this := GeojsonComponent.set_geojson v (this s); mapservice := mapservice s;
     leaflet := leaflet s; console := console s; emissions := emissions s;
     history := history s |}.

(** The state of the overlay between two refreshes: the map service has
    its map, and the map holds the layers [others] that it held before
    the component came, then the groups [groups] that the refreshes
    made, then the current layer, if any. *)
Definition settled (others groups : list Stamp) (cur : option Stamp)
    (s : Store) : Prop :=
  valid s ∧
  MapService.map (mapservice s) = Some Leaflet.TheMap ∧
  GeojsonComponent.currentGeojson (this s) = cur ∧
  onMap (leaflet s) = others ++ groups ++ option_list cur ∧
  (∀ l, cur = Some l -> l ∉ others ++ groups) ∧
  Forall (λ g, isGroup (leaflet s) g = true) groups.

End Overlay.

(** The concrete store of the examples: the component just constructed,
    with or without the map of the map service, in a Leaflet world with
    no layer yet. *)
Definition demo_world : @Leaflet.World demo :=
  @Leaflet.Build_World demo [] (@Leaflet.Build_Map demo [] (0, 0)%Z).

Definition demo_bound : @Store demo :=
  fresh {| MapService.map := Some Leaflet.TheMap; MapService.layerGroup := None |}
        demo_world.

Definition demo_unbound : @Store demo :=
  fresh {| MapService.map := None; MapService.layerGroup := None |} demo_world.

(** Payloads of the examples: three points, one point, an empty
    collection, a collection that the factory rejects. *)
Definition three_points : @GeoJSON demo := [1; 2; 3]%Z.
Definition one_point : @GeoJSON demo := [5]%Z.
Definition no_feature : @GeoJSON demo := [].
Definition broken : @GeoJSON demo := [(-1)%Z].

(** The component after its first payload, then after [ngOnInit]. *)
Definition demo_shown : @Store demo :=
  snd (input_geojson (Some three_points) demo_bound).

Definition demo_ready : @Store demo := snd (ngOnInit demo_shown).

(** The component with one subscriber, with and without map. *)
Definition demo_watched : @Store demo := snd (subscribe 7 demo_bound).

Definition demo_unbound_watched : @Store demo := snd (subscribe 7 demo_unbound).

(** The component with its clustering input set. *)
Definition demo_clustered : @Store demo :=
  snd (update_this (GeojsonComponent.set_asCluste true) demo_bound).

(** P1 in the words of the specification: the map holds exactly one
    group, and that group holds exactly one rendered layer, the one
    built from the payload [p]. *)
Definition one_group_one_layer `{Collaborators} (p : GeoJSON) (s : Store) : Prop :=
  ∃ g l a cb,
    groupsOnMap (leaflet s) = [g] ∧
    Leaflet.membersOf (leaflet s) g = [l] ∧
    Leaflet.objects (leaflet s) !! l = Some (Leaflet.GeoJsonLayer p a cb).

(** ** Further definitions *)

Section Further.
Context `{Collaborators}.

(** The store after a whole refresh that succeeds: detach, load, zoom
    (lemma [ngOnChanges_bound]). *)
Definition refreshed (prev : option GeoJSON) (p : GeoJSON) (s : Store) : Store :=
  reframed prev (loaded p (released s)).


(** The map component creates the map and gives it to the map service
    ([mapservice.map = map], outside the component). *)
Definition map_arrives (s : Store) : Store :=
  {| this := this s;
     mapservice := {| MapService.map := Some Leaflet.TheMap;
                      MapService.layerGroup := MapService.layerGroup (mapservice s) |};
     leaflet := leaflet s; console := console s; emissions := emissions s;
     history := history s |}.

(** The viewport after the zoom steps of the payloads [ps], from the
    viewport [v]: a payload with an extent moves it, one without leaves
    it. *)
Definition zoomed (v : View) (ps : list GeoJSON) : View :=
  foldl (λ v p, match extentOf p with Some b => viewOf b | None => v end) v ps.

(** The console lines of the zoom steps of the payloads [ps]. *)
Definition complaints (ps : list GeoJSON) : list string :=
  flat_map (λ p, if defined (extentOf p) then [] else ["no layer in featuregroup"]) ps.

(** The store with the [zoomOnLayer] input set to [b]. *)
Definition with_zoomOnLayer (b : bool) (s : Store) : Store :=
  {| this :=
       {| GeojsonComponent.map := GeojsonComponent.map (this s);
          GeojsonComponent.currentGeojson := GeojsonComponent.currentGeojson (this s);
          GeojsonComponent.layerGroup := GeojsonComponent.layerGroup (this s);
          GeojsonComponent.geojson := GeojsonComponent.geojson (this s);
          GeojsonComponent.onEachFeature := GeojsonComponent.onEachFeature (this s);
          GeojsonComponent.style := GeojsonComponent.style (this s);
          GeojsonComponent.zoomOnLayer := b;
          GeojsonComponent.asCluste := GeojsonComponent.asCluste (this s);
          GeojsonComponent.geojsonCharged := GeojsonComponent.geojsonCharged (this s) |};
     mapservice := mapservice s; leaflet := leaflet s; console := console s;
     emissions := emissions s; history := history s |}.

(** The component with other values in the fields that no method reads:
    the [style] and [asCluste] inputs and its own [layerGroup]. *)
Definition with_unread (st : option Any) (b : bool) (lg : option Stamp)
    (s : Store) : Store :=
  {| this :=
       {| GeojsonComponent.map := GeojsonComponent.map (this s);
          GeojsonComponent.currentGeojson := GeojsonComponent.currentGeojson (this s);
          GeojsonComponent.layerGroup := lg;
          GeojsonComponent.geojson := GeojsonComponent.geojson (this s);
          GeojsonComponent.onEachFeature := GeojsonComponent.onEachFeature (this s);
          GeojsonComponent.style := st;
          GeojsonComponent.zoomOnLayer := GeojsonComponent.zoomOnLayer (this s);
          GeojsonComponent.asCluste := b;
          GeojsonComponent.geojsonCharged := GeojsonComponent.geojsonCharged (this s) |};
     mapservice := mapservice s; leaflet := leaflet s; console := console s;
     emissions := emissions s; history := history s |}.

(** A group that is left with its layer: it holds exactly one layer,
    made by the factory, and that layer is not on the map. *)
Definition retains (w : Leaflet.World) (g : Stamp) : Prop :=
  ∃ l, Leaflet.objects w !! g = Some (Leaflet.FeatureGroup [l]) ∧
       isRendered w l = true ∧
       l ∉ onMap w.

(** A group that holds exactly one layer, made by the factory, which is
    the current layer or is not on the map. *)
Definition holds (w : Leaflet.World) (cur : option Stamp) (g : Stamp) : Prop :=
  ∃ l, Leaflet.objects w !! g = Some (Leaflet.FeatureGroup [l]) ∧
       isRendered w l = true ∧
       (cur = Some l ∨ l ∉ onMap w).

End Further.

Section Facts.
Context `{Collaborators}.

Notation "'let!' x ':=' c1 'in' c2" := (bind c1 (λ x, c2))
  (at level 10, x name, c1 at level 100, c2 at level 200).

(** ** Runs of the methods *)

(** Unfolds the monad and the primitive operations of a run. *)
Ltac run :=
  unfold mapservice_map, Map_addLayer, Map_removeLayer, FeatureGroup_addLayer,
    new_FeatureGroup, Map_fitBounds, createGeojson, Subject_next, console_log,
    update_this, update_mapservice, mutate, try_catch, deref, bind, read, ret, throw;
  simpl.

Lemma loadGeojson_bound (s : Store) (p : GeoJSON) :
  MapService.map (mapservice s) = Some Leaflet.TheMap ->
  malformed p = false ->
  loadGeojson p s = (Normal tt, loaded p s).
Proof.
  intros Hm Hp. destruct s as [c [mm lg] w co em hi]. simpl in Hm. subst mm.
  unfold loadGeojson, loaded. run. rewrite Hp. run.
  destruct (Rx.isStopped (GeojsonComponent.geojsonCharged c)); simpl;
    rewrite ?app_nil_r, <- ?app_assoc; reflexivity.
Qed.

Lemma loadGeojson_unbound (s : Store) (p : GeoJSON) :
  MapService.map (mapservice s) = None ->
  malformed p = false ->
  loadGeojson p s = (Throw TypeError, stranded p s).
Proof.
  intros Hm Hp. destruct s as [c [mm lg] w co em hi]. simpl in Hm. subst mm.
  unfold loadGeojson, stranded. run. rewrite Hp. run.
  destruct (Rx.isStopped (GeojsonComponent.geojsonCharged c)); simpl;
    rewrite ?app_nil_r, <- ?app_assoc; reflexivity.
Qed.

Lemma loadGeojson_malformed (s : Store) (p : GeoJSON) :
  malformed p = true ->
  loadGeojson p s = (Throw FactoryError, s).
Proof.
  intros Hp. unfold loadGeojson. run. rewrite Hp. reflexivity.
Qed.

Lemma mapservice_released (s : Store) : mapservice (released s) = mapservice s.
Proof. unfold released. destruct (GeojsonComponent.currentGeojson (this s)); reflexivity. Qed.

Lemma this_released (s : Store) : this (released s) = this s.
Proof. unfold released. destruct (GeojsonComponent.currentGeojson (this s)); reflexivity. Qed.

(** The zoom step completes, whatever [fitBounds] does. *)
Lemma zoom_run (prev : option GeoJSON) (s : Store) :
  (let! c := read this in
   if defined prev && GeojsonComponent.zoomOnLayer c
   then
     try_catch
       (let! m := deref (GeojsonComponent.map c) in
        let! ms := read mapservice in
        let! g := deref (MapService.layerGroup ms) in
        let! w := read leaflet in
        Map_fitBounds m (Leaflet.getBounds w g))
       (λ error, console_log "no layer in featuregroup")
   else ret tt) s
  = (Normal tt, reframed prev s).
Proof.
  unfold reframed. unfold bind at 1. unfold read at 1.
  destruct (defined prev && GeojsonComponent.zoomOnLayer (this s)); [|reflexivity].
  run.
  destruct (GeojsonComponent.map (this s)); [|reflexivity].
  destruct (MapService.layerGroup (mapservice s)) as [g|]; [|reflexivity].
  unfold Leaflet.fitBounds.
  destruct (Leaflet.getBounds (leaflet s) g); reflexivity.
Qed.

Lemma release_run (s : Store) :
  MapService.map (mapservice s) = Some Leaflet.TheMap ->
  (match GeojsonComponent.currentGeojson (this s) with
   | Some old => let! m := mapservice_map in Map_removeLayer m old
   | None => ret tt
   end) s = (Normal tt, released s).
Proof.
  intros Hm. unfold released, detached.
  destruct (GeojsonComponent.currentGeojson (this s)); run; [rewrite Hm|]; reflexivity.
Qed.

(** The whole of a refresh that succeeds: detach, load, zoom. *)
Lemma ngOnChanges_bound (s : Store) (prev : option GeoJSON) (p : GeoJSON) :
  MapService.map (mapservice s) = Some Leaflet.TheMap ->
  malformed p = false ->
  ngOnChanges (payload_change prev p) s
  = (Normal tt, reframed prev (loaded p (released s))).
Proof.
  intros Hm Hp.
  unfold ngOnChanges, payload_change.
  cbn [changes_geojson currentValue previousValue].
  unfold bind at 1. unfold read at 1. cbv beta iota.
  unfold bind at 1. rewrite (release_run s Hm).
  unfold bind at 1.
  rewrite loadGeojson_bound by (rewrite ?mapservice_released; assumption).
  apply zoom_run.
Qed.

(** The refresh when the factory rejects the payload. *)
Lemma ngOnChanges_malformed (s : Store) (prev : option GeoJSON) (p : GeoJSON) :
  MapService.map (mapservice s) = Some Leaflet.TheMap ->
  malformed p = true ->
  ngOnChanges (payload_change prev p) s = (Throw FactoryError, released s).
Proof.
  intros Hm Hp. unfold ngOnChanges, payload_change, released, detached. simpl.
  unfold bind at 1. unfold read at 1. unfold bind at 1.
  destruct (GeojsonComponent.currentGeojson (this s)) as [old|].
  - run. rewrite Hm. simpl. unfold loadGeojson. run. rewrite Hp. reflexivity.
  - unfold ret. unfold bind at 1. rewrite loadGeojson_malformed by assumption. reflexivity.
Qed.

(** The refresh when the map service has no map yet. *)
Lemma ngOnChanges_unbound (s : Store) (prev : option GeoJSON) (p : GeoJSON) :
  MapService.map (mapservice s) = None ->
  ngOnChanges (payload_change prev p) s
  = match GeojsonComponent.currentGeojson (this s) with
    | Some old => (Throw TypeError, s)
    | None =>
        if malformed p then (Throw FactoryError, s)
        else (Throw TypeError, stranded p s)
    end.
Proof.
  intros Hm. unfold ngOnChanges, payload_change. simpl.
  unfold bind at 1. unfold read at 1. unfold bind at 1.
  destruct (GeojsonComponent.currentGeojson (this s)) as [old|].
  - run. rewrite Hm. reflexivity.
  - unfold ret. unfold bind at 1.
    destruct (malformed p) eqn:Hp.
    + rewrite loadGeojson_malformed by assumption. reflexivity.
    + rewrite loadGeojson_unbound by assumption. reflexivity.
Qed.

(** ** The Leaflet world after a load *)

Lemma Map_addLayer_leaf (l : Stamp) (w : Leaflet.World) :
  Leaflet.membersOf w l = [] ->
  Leaflet.Map_addLayer l w = Leaflet.withLayers (Leaflet.attach (onMap w) l) w.
Proof.
  intros Hl. unfold Leaflet.Map_addLayer, Leaflet.hasLayer, Leaflet.attach, onMap.
  rewrite Hl. simpl.
  destruct (bool_decide (l ∈ Leaflet._layers (Leaflet.surface w))); [|reflexivity].
  destruct w as [o [ls v]]. reflexivity.
Qed.

Lemma elem_of_attach (ls : list Stamp) (l x : Stamp) :
  x ∈ Leaflet.attach ls l <-> x ∈ ls ∨ x = l.
Proof.
  unfold Leaflet.attach. case_bool_decide as Hin.
  - split; [auto|]. intros [Hx | ->]; assumption.
  - rewrite elem_of_app, list_elem_of_singleton. reflexivity.
Qed.

Lemma attach_new (ls : list Stamp) (l : Stamp) :
  l ∉ ls -> Leaflet.attach ls l = ls ++ [l].
Proof. intros Hl. unfold Leaflet.attach. rewrite bool_decide_eq_false_2; auto. Qed.

Lemma loaded_leaflet (p : GeoJSON) (s : Store) :
  leaflet (loaded p s)
  = {| Leaflet.objects :=
         Leaflet.objects (leaflet s)
           ++ [Leaflet.GeoJsonLayer p (GeojsonComponent.asCluster (this s))
                                    (GeojsonComponent.onEachFeature (this s));
               Leaflet.FeatureGroup [length (Leaflet.objects (leaflet s))]];
       Leaflet.surface :=
         {| Leaflet._layers :=
              Leaflet.attach
                (Leaflet.attach (onMap (leaflet s))
                                (S (length (Leaflet.objects (leaflet s)))))
                (length (Leaflet.objects (leaflet s)));
            Leaflet.viewport := Leaflet.viewport (Leaflet.surface (leaflet s)) |} |}.
Proof.
  destruct s as [c ms [objs [ls v]] co em hi].
  unfold loaded, Leaflet.newFeatureGroup, Leaflet.newGeoJSON, onMap. simpl.
  rewrite length_app, Nat.add_1_r. simpl.
  set (made := Leaflet.GeoJsonLayer p (GeojsonComponent.asCluster c)
                                    (GeojsonComponent.onEachFeature c)).
  rewrite <- app_assoc. simpl.
  assert (Hg : (objs ++ [made; Leaflet.FeatureGroup []]) !! S (length objs)
               = Some (Leaflet.FeatureGroup [])).
  { rewrite lookup_app_r by lia.
    replace (S (length objs) - length objs) with 1 by lia. reflexivity. }
  rewrite Map_addLayer_leaf
    by (unfold Leaflet.membersOf; cbn [Leaflet.objects]; rewrite Hg; reflexivity).
  unfold Leaflet.withLayers, onMap. cbn [Leaflet.objects Leaflet.surface Leaflet._layers Leaflet.viewport].
  unfold Leaflet.FeatureGroup_addLayer. cbn [Leaflet.objects]. rewrite Hg.
  rewrite bool_decide_eq_false_2 by (apply not_elem_of_nil).
  unfold Leaflet.hasLayer. cbn [Leaflet.objects Leaflet.surface Leaflet._layers Leaflet.viewport].
  rewrite bool_decide_eq_true_2 by (apply elem_of_attach; auto).
  assert (Hi : <[S (length objs) := Leaflet.FeatureGroup [length objs]]>
                 (objs ++ [made; Leaflet.FeatureGroup []])
               = objs ++ [made; Leaflet.FeatureGroup [length objs]]).
  { rewrite insert_app_r_alt by lia.
    replace (S (length objs) - length objs) with 1 by lia. reflexivity. }
  rewrite app_nil_l, Hi.
  rewrite Map_addLayer_leaf.
  - reflexivity.
  - unfold Leaflet.membersOf. cbn [Leaflet.objects].
    rewrite list_lookup_middle by reflexivity. reflexivity.
Qed.

(** ** What the steps keep *)

Lemma released_emissions (s : Store) : emissions (released s) = emissions s.
Proof. unfold released. destruct (GeojsonComponent.currentGeojson (this s)); reflexivity. Qed.

Lemma released_console (s : Store) : console (released s) = console s.
Proof. unfold released. destruct (GeojsonComponent.currentGeojson (this s)); reflexivity. Qed.

Lemma removeLayer_objects (l : Stamp) (w : Leaflet.World) :
  Leaflet.objects (Leaflet.Map_removeLayer l w) = Leaflet.objects w.
Proof. unfold Leaflet.Map_removeLayer. destruct (Leaflet.hasLayer w l); reflexivity. Qed.

Lemma removeLayer_viewport (l : Stamp) (w : Leaflet.World) :
  Leaflet.viewport (Leaflet.surface (Leaflet.Map_removeLayer l w))
  = Leaflet.viewport (Leaflet.surface w).
Proof. unfold Leaflet.Map_removeLayer. destruct (Leaflet.hasLayer w l); reflexivity. Qed.

Lemma removeLayer_gone (l : Stamp) (w : Leaflet.World) :
  l ∉ onMap (Leaflet.Map_removeLayer l w).
Proof.
  unfold Leaflet.Map_removeLayer, Leaflet.hasLayer, onMap.
  case_bool_decide as Hin; [|exact Hin].
  simpl. rewrite list_elem_of_filter. intros [Hout _]. apply Hout. left.
Qed.

Lemma released_objects (s : Store) :
  Leaflet.objects (leaflet (released s)) = Leaflet.objects (leaflet s).
Proof.
  unfold released. destruct (GeojsonComponent.currentGeojson (this s)); [|reflexivity].
  apply removeLayer_objects.
Qed.

Lemma released_viewport (s : Store) :
  Leaflet.viewport (Leaflet.surface (leaflet (released s)))
  = Leaflet.viewport (Leaflet.surface (leaflet s)).
Proof.
  unfold released. destruct (GeojsonComponent.currentGeojson (this s)); [|reflexivity].
  apply removeLayer_viewport.
Qed.

Ltac reframe_cases prev s :=
  unfold reframed, Leaflet.fitBounds;
  destruct (defined prev && GeojsonComponent.zoomOnLayer (this s)); [|reflexivity];
  destruct (GeojsonComponent.map (this s)); [|reflexivity];
  destruct (MapService.layerGroup (mapservice s)) as [g|]; [|reflexivity];
  destruct (Leaflet.getBounds (leaflet s) g); reflexivity.

Lemma reframed_this (prev : option GeoJSON) (s : Store) :
  this (reframed prev s) = this s.
Proof.
  reframe_cases prev s.
Qed.

Lemma reframed_mapservice (prev : option GeoJSON) (s : Store) :
  mapservice (reframed prev s) = mapservice s.
Proof.
  reframe_cases prev s.
Qed.

Lemma reframed_emissions (prev : option GeoJSON) (s : Store) :
  emissions (reframed prev s) = emissions s.
Proof.
  reframe_cases prev s.
Qed.

Lemma reframed_objects (prev : option GeoJSON) (s : Store) :
  Leaflet.objects (leaflet (reframed prev s)) = Leaflet.objects (leaflet s).
Proof.
  reframe_cases prev s.
Qed.

Lemma reframed_onMap (prev : option GeoJSON) (s : Store) :
  onMap (leaflet (reframed prev s)) = onMap (leaflet s).
Proof.
  reframe_cases prev s.
Qed.

Lemma reframed_first (s : Store) : reframed None s = s.
Proof. reflexivity. Qed.

Lemma loaded_current (p : GeoJSON) (s : Store) :
  Leaflet.objects (leaflet (loaded p s)) !! length (Leaflet.objects (leaflet s))
  = Some (Leaflet.GeoJsonLayer p (GeojsonComponent.asCluster (this s))
                               (GeojsonComponent.onEachFeature (this s))).
Proof.
  rewrite loaded_leaflet. cbn [Leaflet.objects].
  apply list_lookup_middle. reflexivity.
Qed.

Lemma loaded_group (p : GeoJSON) (s : Store) :
  Leaflet.objects (leaflet (loaded p s)) !! S (length (Leaflet.objects (leaflet s)))
  = Some (Leaflet.FeatureGroup [length (Leaflet.objects (leaflet s))]).
Proof.
  rewrite loaded_leaflet. cbn [Leaflet.objects].
  rewrite lookup_app_r by lia.
  replace (S (length (Leaflet.objects (leaflet s))) - length (Leaflet.objects (leaflet s)))
    with 1 by lia.
  reflexivity.
Qed.

Lemma loaded_layerGroup (p : GeoJSON) (s : Store) :
  MapService.layerGroup (mapservice (loaded p s))
  = Some (S (length (Leaflet.objects (leaflet s)))).
Proof.
  unfold loaded, Leaflet.newFeatureGroup, Leaflet.newGeoJSON. simpl.
  rewrite length_app, Nat.add_1_r. reflexivity.
Qed.

(** The bounds of the group of the overlay are the extent of the
    payload. *)
Lemma loaded_bounds (p : GeoJSON) (s : Store) :
  Leaflet.getBounds (leaflet (loaded p s)) (S (length (Leaflet.objects (leaflet s))))
  = extentOf p.
Proof.
  unfold Leaflet.getBounds, Leaflet.membersOf. rewrite loaded_group.
  cbn [foldl]. unfold Leaflet.layerBounds. rewrite loaded_current. reflexivity.
Qed.

(** ** The claims *)

(** C9: a change event that does not concern the [geojson] input, or
    whose new payload is [undefined], is skipped entirely: the call
    returns and the store (objects, map, notifications, current layer)
    is the one it started from. *)
Theorem ngOnChanges_skips (s : Store) (others : list string) (prev : option GeoJSON) :
  ngOnChanges {| changes_geojson := None; changes_others := others |} s
    = (Normal tt, s) ∧
  ngOnChanges {| changes_geojson :=
                   Some {| previousValue := prev; currentValue := None |};
                 changes_others := others |} s
    = (Normal tt, s).
Proof. split; reflexivity. Qed.

(** C10: when the factory throws on the payload and a previous layer
    existed, the exception leaves [ngOnChanges] with the previous layer
    already off the map and nothing published; the component still
    holds the reference to the detached layer. *)
Theorem factory_failure_not_atomic (s : Store) (prev : option GeoJSON)
    (p : GeoJSON) (old : Stamp) :
  MapService.map (mapservice s) = Some Leaflet.TheMap ->
  GeojsonComponent.currentGeojson (this s) = Some old ->
  malformed p = true ->
  ∃ s', ngOnChanges (payload_change prev p) s = (Throw FactoryError, s') ∧
        leaflet s' = Leaflet.Map_removeLayer old (leaflet s) ∧
        (old ∉ onMap (leaflet s')) ∧
        emissions s' = emissions s ∧
        GeojsonComponent.currentGeojson (this s') = Some old.
Proof.
  intros Hm Hc Hp. exists (released s).
  rewrite ngOnChanges_malformed by assumption.
  unfold released. rewrite Hc. simpl.
  repeat split; try assumption. apply removeLayer_gone.
Qed.

(** C7: a refresh that returns publishes once, and what it publishes
    is the layer that the factory made from the payload, which is then
    the current layer of the component. *)
Theorem one_emission_per_refresh (s s' : Store) (prev : option GeoJSON) (p : GeoJSON) :
  Rx.isStopped (GeojsonComponent.geojsonCharged (this s)) = false ->
  ngOnChanges (payload_change prev p) s = (Normal tt, s') ->
  ∃ l, emissions s'
         = emissions s ++ [(l, Rx.observers (GeojsonComponent.geojsonCharged (this s)))] ∧
       GeojsonComponent.currentGeojson (this s') = Some l ∧
       Leaflet.objects (leaflet s') !! l
         = Some (Leaflet.GeoJsonLayer p (GeojsonComponent.asCluster (this s))
                                      (GeojsonComponent.onEachFeature (this s))).
Proof.
  intros Hopen Hrun.
  destruct (MapService.map (mapservice s)) as [[]|] eqn:Hm.
  - destruct (malformed p) eqn:Hp.
    + rewrite ngOnChanges_malformed in Hrun by assumption. discriminate.
    + rewrite ngOnChanges_bound in Hrun by assumption.
      injection Hrun as <-.
      exists (length (Leaflet.objects (leaflet s))).
      rewrite reframed_emissions, reframed_this, reframed_objects.
      rewrite <- (released_objects s) at 3. rewrite loaded_current.
      rewrite this_released.
      unfold loaded. cbn [emissions this]. rewrite this_released, Hopen.
      rewrite released_emissions.
      unfold Leaflet.newGeoJSON. cbn [fst]. rewrite released_objects.
      repeat split.
  - rewrite ngOnChanges_unbound in Hrun by assumption.
    destruct (GeojsonComponent.currentGeojson (this s)); [discriminate|].
    destruct (malformed p); discriminate.
Qed.

(** C3 (amended): nothing guards a refresh against a map service
    without map.  With a payload that the factory accepts, the refresh
    throws a [TypeError]; the map is not touched.  When a layer was
    current, the throw comes from the detachment and the store is
    unchanged; when none was, the new layer has by then been made, kept
    as current layer and published, and a new empty group has been made
    and kept in the map service. *)
Theorem refresh_without_map (s : Store) (prev : option GeoJSON) (p : GeoJSON) :
  MapService.map (mapservice s) = None ->
  malformed p = false ->
  ∃ s', ngOnChanges (payload_change prev p) s = (Throw TypeError, s') ∧
        Leaflet.surface (leaflet s') = Leaflet.surface (leaflet s) ∧
        match GeojsonComponent.currentGeojson (this s) with
        | Some old => s' = s
        | None =>
            let l := length (Leaflet.objects (leaflet s)) in
            let sub := GeojsonComponent.geojsonCharged (this s) in
            GeojsonComponent.currentGeojson (this s') = Some l ∧
            Leaflet.objects (leaflet s')
              = Leaflet.objects (leaflet s)
                  ++ [Leaflet.GeoJsonLayer p (GeojsonComponent.asCluster (this s))
                                           (GeojsonComponent.onEachFeature (this s));
                      Leaflet.FeatureGroup []] ∧
            MapService.layerGroup (mapservice s') = Some (S l) ∧
            emissions s'
              = emissions s ++ (if Rx.isStopped sub then [] else [(l, Rx.observers sub)])
        end.
Proof.
  intros Hm Hp. rewrite ngOnChanges_unbound by assumption.
  destruct (GeojsonComponent.currentGeojson (this s)) as [old|] eqn:Hc.
  - exists s. auto.
  - rewrite Hp. exists (stranded p s). split; [reflexivity|].
    unfold stranded, Leaflet.newFeatureGroup, Leaflet.newGeoJSON. simpl.
    rewrite <- app_assoc, length_app, Nat.add_1_r. simpl. auto.
Qed.

(** C8: when the bounds of the new overlay are not valid, the zoom step
    fails and the failure is swallowed: the refresh returns, and leaves
    the store [s0] of the same refresh without zoom step but for one more
    line on the console; the new group and layer are on the map and the
    viewport is the one before the refresh. *)
Theorem reframe_failure_suppressed (s : Store) (prev p : GeoJSON) :
  MapService.map (mapservice s) = Some Leaflet.TheMap ->
  malformed p = false ->
  extentOf p = None ->
  GeojsonComponent.zoomOnLayer (this s) = true ->
  ∃ s0 s' g l,
    ngOnChanges (payload_change None p) s = (Normal tt, s0) ∧
    ngOnChanges (payload_change (Some prev) p) s = (Normal tt, s') ∧
    s' = logged "no layer in featuregroup" s0 ∧
    console s' = console s ++ ["no layer in featuregroup"] ∧
    Leaflet.viewport (Leaflet.surface (leaflet s'))
      = Leaflet.viewport (Leaflet.surface (leaflet s)) ∧
    MapService.layerGroup (mapservice s') = Some g ∧
    GeojsonComponent.currentGeojson (this s') = Some l ∧
    Leaflet.getBounds (leaflet s') g = None ∧
    Leaflet.membersOf (leaflet s') g = [l] ∧
    g ∈ onMap (leaflet s') ∧ l ∈ onMap (leaflet s').
Proof.
  intros Hm Hp He Hz.
  set (n := length (Leaflet.objects (leaflet (released s)))).
  exists (loaded p (released s)),
         (logged "no layer in featuregroup" (loaded p (released s))), (S n), n.
  rewrite !ngOnChanges_bound by assumption.
  assert (Hb : Leaflet.getBounds (leaflet (loaded p (released s))) (S n) = None).
  { unfold n. rewrite loaded_bounds. exact He. }
  split; [reflexivity|]. split.
  { f_equal. unfold reframed. cbn [defined andb].
    replace (GeojsonComponent.zoomOnLayer (this (loaded p (released s)))) with true
      by (cbn; rewrite this_released; auto).
    destruct (GeojsonComponent.map (this (loaded p (released s)))); [|reflexivity].
    rewrite loaded_layerGroup. fold n. rewrite Hb. reflexivity. }
  split; [reflexivity|].
  cbn [logged console leaflet mapservice this].
  split; [cbn; rewrite released_console; reflexivity|].
  split; [rewrite loaded_leaflet; apply released_viewport|].
  split; [apply loaded_layerGroup|].
  split; [reflexivity|].
  split; [exact Hb|].
  split; [unfold Leaflet.membersOf, n; rewrite loaded_group; reflexivity|].
  rewrite loaded_leaflet. unfold onMap. cbn [Leaflet.surface Leaflet._layers].
  fold n. rewrite !elem_of_attach. auto.
Qed.

Lemma first_change_keeps_viewport (s : Store) (p : GeoJSON) :
  Leaflet.viewport (Leaflet.surface (leaflet (snd (ngOnChanges (payload_change None p) s))))
  = Leaflet.viewport (Leaflet.surface (leaflet s)).
Proof.
  destruct (MapService.map (mapservice s)) as [[]|] eqn:Hm.
  - destruct (malformed p) eqn:Hp.
    + rewrite ngOnChanges_malformed by assumption. apply released_viewport.
    + rewrite ngOnChanges_bound by assumption. cbn [snd].
      rewrite reframed_first, loaded_leaflet. apply released_viewport.
  - rewrite ngOnChanges_unbound by assumption.
    destruct (GeojsonComponent.currentGeojson (this s)); [reflexivity|].
    destruct (malformed p); reflexivity.
Qed.

Lemma later_change_fits (s : Store) (prev p : GeoJSON) (b : LatLngBounds) :
  GeojsonComponent.zoomOnLayer (this s) = true ->
  GeojsonComponent.map (this s) = Some Leaflet.TheMap ->
  MapService.map (mapservice s) = Some Leaflet.TheMap ->
  malformed p = false ->
  extentOf p = Some b ->
  ∃ s' g, ngOnChanges (payload_change (Some prev) p) s = (Normal tt, s') ∧
          MapService.layerGroup (mapservice s') = Some g ∧
          g ∈ onMap (leaflet s') ∧
          Leaflet.getBounds (leaflet s') g = Some b ∧
          Leaflet.viewport (Leaflet.surface (leaflet s')) = viewOf b.
Proof.
  intros Hz Hmap Hm Hp He.
  set (n := length (Leaflet.objects (leaflet (released s)))).
  assert (Hb : Leaflet.getBounds (leaflet (loaded p (released s))) (S n) = Some b).
  { unfold n. rewrite loaded_bounds. exact He. }
  assert (Hr : reframed (Some prev) (loaded p (released s))
               = mutated {| Leaflet.objects := Leaflet.objects (leaflet (loaded p (released s)));
                            Leaflet.surface :=
                              {| Leaflet._layers := onMap (leaflet (loaded p (released s)));
                                 Leaflet.viewport := viewOf b |} |}
                         (loaded p (released s))).
  { unfold reframed. cbn [defined andb].
    replace (GeojsonComponent.zoomOnLayer (this (loaded p (released s)))) with true
      by (cbn; rewrite this_released; auto).
    replace (GeojsonComponent.map (this (loaded p (released s))))
      with (Some Leaflet.TheMap) by (cbn; rewrite this_released; auto).
    rewrite loaded_layerGroup. fold n. rewrite Hb. reflexivity. }
  exists (reframed (Some prev) (loaded p (released s))), (S n).
  rewrite ngOnChanges_bound by assumption.
  split; [reflexivity|].
  split; [rewrite reframed_mapservice; apply loaded_layerGroup|].
  split.
  { rewrite reframed_onMap, loaded_leaflet. unfold onMap at 1.
    cbn [Leaflet.surface Leaflet._layers]. fold n. rewrite !elem_of_attach. auto. }
  rewrite Hr. cbn [mutated leaflet Leaflet.surface Leaflet.viewport].
  split; [|reflexivity].
  rewrite <- Hb. reflexivity.
Qed.

Lemma input_geojson_run (v : option GeoJSON) (s : Store) :
  input_geojson v s
  = ngOnChanges {| changes_geojson :=
                     Some {| previousValue := GeojsonComponent.geojson (this s);
                             currentValue := v |};
                   changes_others := [] |} (fed v s).
Proof. reflexivity. Qed.

(** ** The channel *)

Lemma ngOnChanges_subject (c : SimpleChanges) (s : Store) :
  GeojsonComponent.geojsonCharged (this (snd (ngOnChanges c s)))
  = GeojsonComponent.geojsonCharged (this s).
Proof.
  destruct c as [[[prev [p|]]|] others]; try reflexivity.
  change (ngOnChanges _ s) with (ngOnChanges (payload_change prev p) s).
  destruct (MapService.map (mapservice s)) as [[]|] eqn:Hm.
  - destruct (malformed p) eqn:Hp.
    + rewrite ngOnChanges_malformed by assumption. cbn [snd].
      rewrite this_released. reflexivity.
    + rewrite ngOnChanges_bound by assumption. cbn [snd].
      rewrite reframed_this. cbn. rewrite this_released. reflexivity.
  - rewrite ngOnChanges_unbound by assumption.
    destruct (GeojsonComponent.currentGeojson (this s)); [reflexivity|].
    destruct (malformed p); reflexivity.
Qed.

Lemma lifecycle_subject (h : Hook) (s : Store) :
  GeojsonComponent.geojsonCharged (this (snd (lifecycle h s)))
  = GeojsonComponent.geojsonCharged (this s).
Proof.
  destruct h as [c| |]; [apply ngOnChanges_subject|reflexivity|reflexivity].
Qed.

(** C5 (amended): the component has no destruction hook and no method
    of it completes the subject: its destruction changes nothing, and
    after any sequence of lifecycle events, destruction included, the
    subject is as it was, open and with the same subscribers. *)
Theorem channel_never_closed (events : list Hook) (s : Store) :
  lifecycle OnDestroy s = (Normal tt, s) ∧
  GeojsonComponent.geojsonCharged (this (host events s))
    = GeojsonComponent.geojsonCharged (this s).
Proof.
  split; [reflexivity|].
  revert s. induction events as [|h rest IH]; intros s; [reflexivity|].
  cbn [host]. rewrite IH. apply lifecycle_subject.
Qed.

(** ** The order of the mutations *)

Lemma loaded_history (p : GeoJSON) (s : Store) :
  ∃ w1 w2 w3,
    history (loaded p s) = history s ++ [w1; w2; w3; leaflet (loaded p s)] ∧
    onMap w1 = onMap (leaflet s) ∧
    onMap w2 = onMap (leaflet s) ∧
    onMap w3 = Leaflet.attach (onMap (leaflet s)) (S (length (Leaflet.objects (leaflet s)))).
Proof.
  eexists _, _, _. split; [reflexivity|].
  split; [reflexivity|]. split; [reflexivity|].
  destruct s as [c ms [objs [ls v]] co em hi].
  unfold Leaflet.newFeatureGroup, Leaflet.newGeoJSON, onMap.
  cbn [fst snd leaflet Leaflet.objects Leaflet.surface Leaflet._layers].
  rewrite length_app, Nat.add_1_r. cbn [length].
  rewrite Map_addLayer_leaf; [reflexivity|].
  unfold Leaflet.membersOf. cbn [Leaflet.objects].
  rewrite list_lookup_middle; [reflexivity|].
  rewrite length_app, Nat.add_1_r. reflexivity.
Qed.

Lemma reframed_history (prev : option GeoJSON) (s : Store) :
  ∃ extra, history (reframed prev s) = history s ++ extra ∧
           Forall (λ w, onMap w = onMap (leaflet s)) extra.
Proof.
  unfold reframed, Leaflet.fitBounds.
  destruct (defined prev && GeojsonComponent.zoomOnLayer (this s));
    [|exists []; rewrite app_nil_r; auto].
  destruct (GeojsonComponent.map (this s));
    [|exists []; cbn; rewrite app_nil_r; auto].
  destruct (MapService.layerGroup (mapservice s)) as [g|];
    [|exists []; cbn; rewrite app_nil_r; auto].
  destruct (Leaflet.getBounds (leaflet s) g);
    [|exists []; cbn; rewrite app_nil_r; auto].
  eexists [_]. split; [reflexivity|]. constructor; [reflexivity|constructor].
Qed.

Lemma valid_new_off_map (s : Store) (k : nat) :
  valid s -> length (Leaflet.objects (leaflet s)) + k ∉ onMap (leaflet s).
Proof.
  intros [Hv _] Hin. rewrite Forall_forall in Hv. apply Hv in Hin. lia.
Qed.

Lemma isRendered_lt (w : Leaflet.World) (l : Stamp) :
  isRendered w l = true -> l < length (Leaflet.objects w).
Proof.
  unfold isRendered. destruct (Leaflet.objects w !! l) eqn:Hl; [|discriminate].
  intros _. eapply lookup_lt_Some; eassumption.
Qed.

(** C4: in a refresh, the detachment of the layer that was current is
    the first mutation of the Leaflet world; from that point to the end
    of the refresh the old layer is off the map, so at no point are the
    old and the new layer both on it, and the new group is on the map
    only when the old layer is off.  With no layer current, every layer
    that was on the map stays on it at every point. *)
Theorem remove_before_add (s : Store) (prev : option GeoJSON) (p : GeoJSON) :
  valid s ->
  MapService.map (mapservice s) = Some Leaflet.TheMap ->
  malformed p = false ->
  ∃ s' new g steps,
    ngOnChanges (payload_change prev p) s = (Normal tt, s') ∧
    history s' = history s ++ steps ∧
    GeojsonComponent.currentGeojson (this s') = Some new ∧
    MapService.layerGroup (mapservice s') = Some g ∧
    new ∈ onMap (leaflet s') ∧ g ∈ onMap (leaflet s') ∧
    match GeojsonComponent.currentGeojson (this s) with
    | Some old =>
        (∃ rest, steps = Leaflet.Map_removeLayer old (leaflet s) :: rest) ∧
        Forall (λ w, old ∉ onMap w) steps ∧
        Forall (λ w, ¬ (old ∈ onMap w ∧ new ∈ onMap w)) (leaflet s :: steps) ∧
        Forall (λ w, g ∈ onMap w -> old ∉ onMap w) (leaflet s :: steps)
    | None =>
        Forall (λ w, ∀ x, x ∈ onMap (leaflet s) -> x ∈ onMap w) steps
    end.
Proof.
  intros Hv Hm Hp.
  set (n := length (Leaflet.objects (leaflet s))).
  assert (Hn : length (Leaflet.objects (leaflet (released s))) = n)
    by (unfold n; rewrite released_objects; reflexivity).
  destruct (loaded_history p (released s)) as (w1 & w2 & w3 & Hh & H1 & H2 & H3).
  destruct (reframed_history prev (loaded p (released s))) as (extra & He & Hx).
  assert (H4 : onMap (leaflet (loaded p (released s)))
               = Leaflet.attach (Leaflet.attach (onMap (leaflet (released s))) (S n)) n).
  { rewrite loaded_leaflet, Hn. reflexivity. }
  rewrite Hn in H3.
  exists (reframed prev (loaded p (released s))), n, (S n).
  exists (match GeojsonComponent.currentGeojson (this s) with
          | Some old => [Leaflet.Map_removeLayer old (leaflet s)]
          | None => []
          end ++ [w1; w2; w3; leaflet (loaded p (released s))] ++ extra).
  split; [apply ngOnChanges_bound; assumption|].
  split.
  { rewrite He, Hh. unfold released, detached.
    destruct (GeojsonComponent.currentGeojson (this s)); cbn [history];
      rewrite <- ?app_assoc; reflexivity. }
  split; [rewrite reframed_this; cbn; rewrite Hn; reflexivity|].
  split; [rewrite reframed_mapservice, loaded_layerGroup, Hn; reflexivity|].
  split; [rewrite reframed_onMap, H4, !elem_of_attach; auto|].
  split; [rewrite reframed_onMap, H4, !elem_of_attach; auto|].
  pose proof (valid_new_off_map s 0 Hv) as Hn0.
  pose proof (valid_new_off_map s 1 Hv) as Hn1.
  rewrite Nat.add_0_r in Hn0. rewrite Nat.add_1_r in Hn1. fold n in Hn0, Hn1.
  destruct Hv as [_ Hcur].
  unfold released, detached in *.
  destruct (GeojsonComponent.currentGeojson (this s)) as [old|].
  - cbn [leaflet] in *.
    apply isRendered_lt in Hcur. fold n in Hcur.
    pose proof (removeLayer_gone old (leaflet s)) as Hgone.
    assert (Hall : Forall (λ w, old ∉ onMap w)
                     ([Leaflet.Map_removeLayer old (leaflet s)]
                        ++ [w1; w2; w3; leaflet (loaded p (detached old s))] ++ extra)).
    { unfold detached. cbn [app]. repeat (apply Forall_cons; split).
      - exact Hgone.
      - rewrite H1. exact Hgone.
      - rewrite H2. exact Hgone.
      - rewrite H3, elem_of_attach. intros [?| ->]; [auto|lia].
      - rewrite H4, !elem_of_attach. intros [[?| ->]| ->]; [auto|lia|lia].
      - eapply Forall_impl; [exact Hx|]. intros w Hw. cbv beta in *.
        rewrite Hw, H4, !elem_of_attach. intros [[?| ->]| ->]; [auto|lia|lia]. }
    split; [eexists; reflexivity|].
    split; [exact Hall|].
    split.
    + apply Forall_cons; split; [tauto|].
      eapply Forall_impl; [exact Hall|]. intros w Hw. cbv beta in *. tauto.
    + apply Forall_cons; split; [tauto|].
      eapply Forall_impl; [exact Hall|]. intros w Hw. cbv beta in *. tauto.
  - cbn [app]. cbn [leaflet] in *.
    repeat (apply Forall_cons; split); try apply Forall_nil.
    + rewrite H1. auto.
    + rewrite H2. auto.
    + intros x Hx0. rewrite H3, elem_of_attach. auto.
    + intros x Hx0. rewrite H4, !elem_of_attach. auto.
    + eapply Forall_impl; [exact Hx|]. intros w Hw x Hx0. cbv beta in *.
      rewrite Hw, H4, !elem_of_attach. auto.
Qed.

(** ** Sequences of updates *)

Lemma filter_all {A} (P : A -> Prop) `{∀ x, Decision (P x)} (l : list A) :
  Forall P l -> filter P l = l.
Proof.
  induction 1 as [|x l Hx _ IH]; [reflexivity|].
  rewrite filter_cons_True by assumption. rewrite IH. reflexivity.
Qed.

Lemma isRendered_members (w : Leaflet.World) (l : Stamp) :
  isRendered w l = true -> Leaflet.membersOf w l = [].
Proof.
  unfold isRendered, Leaflet.membersOf.
  destruct (Leaflet.objects w !! l) as [[]|]; [reflexivity|discriminate|reflexivity].
Qed.

Lemma isGroup_grows (w w' : Leaflet.World) (extra : list Leaflet.Layer) (g : Stamp) :
  Leaflet.objects w' = Leaflet.objects w ++ extra ->
  isGroup w g = true -> isGroup w' g = true.
Proof.
  intros Ho. unfold isGroup. rewrite Ho.
  destruct (Leaflet.objects w !! g) as [o|] eqn:Hg; [|discriminate].
  rewrite (lookup_app_l_Some _ _ _ _ Hg). auto.
Qed.

(** The map after the detachment step, between two refreshes. *)
Lemma settled_released (others groups : list Stamp) (cur : option Stamp) (s : Store) :
  settled others groups cur s ->
  onMap (leaflet (released s)) = others ++ groups.
Proof.
  intros (Hv & _ & Hc & HL & Hfresh & _). unfold released. rewrite Hc.
  destruct cur as [l|];
    [|rewrite HL; change (option_list None) with (@nil nat);
      rewrite app_nil_r; reflexivity].
  destruct Hv as [_ Hr]. rewrite Hc in Hr.
  cbn [detached leaflet].
  unfold Leaflet.Map_removeLayer, Leaflet.hasLayer.
  rewrite (isRendered_members _ _ Hr).
  fold (onMap (leaflet s)). rewrite HL. change (option_list (Some l)) with [l].
  rewrite bool_decide_eq_true_2 by (rewrite !elem_of_app, list_elem_of_singleton; auto).
  unfold onMap, Leaflet.withLayers. cbn [Leaflet.surface Leaflet._layers].
  rewrite app_assoc, filter_app.
  rewrite filter_all.
  - rewrite filter_cons_False by (intros Hn; apply Hn; left). cbn.
    apply app_nil_r.
  - apply Forall_forall. intros x Hx Hin.
    apply list_elem_of_singleton in Hin. subst x.
    apply (Hfresh l eq_refl). exact Hx.
Qed.

(** One refresh, between two refreshes. *)
Lemma settled_refresh (others groups : list Stamp) (cur : option Stamp)
    (s : Store) (prev : option GeoJSON) (p : GeoJSON) :
  settled others groups cur s ->
  malformed p = false ->
  let n := length (Leaflet.objects (leaflet s)) in
  ∃ s', ngOnChanges (payload_change prev p) s = (Normal tt, s') ∧
        settled others (groups ++ [S n]) (Some n) s' ∧
        MapService.layerGroup (mapservice s') = Some (S n) ∧
        Leaflet.objects (leaflet s') !! S n = Some (Leaflet.FeatureGroup [n]) ∧
        Leaflet.objects (leaflet s') !! n
          = Some (Leaflet.GeoJsonLayer p (GeojsonComponent.asCluster (this s))
                                       (GeojsonComponent.onEachFeature (this s))) ∧
        GeojsonComponent.onEachFeature (this s') = GeojsonComponent.onEachFeature (this s) ∧
        (S n ∉ others ++ groups).
Proof.
  intros Hs Hp n.
  pose proof (settled_released _ _ _ _ Hs) as HL.
  destruct Hs as (Hv & Hm & Hc & HL0 & Hfresh & Hg).
  assert (Hn : length (Leaflet.objects (leaflet (released s))) = n)
    by (unfold n; rewrite released_objects; reflexivity).
  assert (Hlt : Forall (λ x, x < n) (others ++ groups)).
  { destruct Hv as [Hv _]. rewrite HL0, app_assoc in Hv.
    apply Forall_app in Hv. tauto. }
  assert (Hobj : Leaflet.objects (leaflet (loaded p (released s)))
                 = Leaflet.objects (leaflet s)
                     ++ [Leaflet.GeoJsonLayer p (GeojsonComponent.asCluster (this s))
                                              (GeojsonComponent.onEachFeature (this s));
                         Leaflet.FeatureGroup [n]]).
  { rewrite loaded_leaflet. cbn [Leaflet.objects].
    rewrite Hn, released_objects, this_released. reflexivity. }
  assert (Hmap : onMap (leaflet (loaded p (released s)))
                 = others ++ (groups ++ [S n]) ++ [n]).
  { rewrite loaded_leaflet. unfold onMap at 1.
    cbn [Leaflet.surface Leaflet._layers]. rewrite Hn, HL.
    rewrite (attach_new (others ++ groups) (S n)).
    - rewrite attach_new.
      + rewrite <- !app_assoc. reflexivity.
      + rewrite elem_of_app, list_elem_of_singleton. intros [Hin|]; [|lia].
        rewrite Forall_forall in Hlt. apply Hlt in Hin. lia.
    - intros Hin. rewrite Forall_forall in Hlt. apply Hlt in Hin. lia. }
  exists (reframed prev (loaded p (released s))).
  split; [apply ngOnChanges_bound; assumption|].
  rewrite reframed_mapservice, reframed_objects, reframed_this.
  split.
  { unfold settled, valid.
    rewrite reframed_mapservice, reframed_objects, reframed_this, reframed_onMap.
    rewrite Hmap, Hobj, length_app. fold n. cbn [length].
    split; [split|].
    - rewrite app_assoc. apply Forall_app. split.
      + rewrite app_assoc. apply Forall_app. split.
        * eapply Forall_impl; [exact Hlt|]. intros x Hx. cbv beta in *. lia.
        * apply Forall_cons. split; [lia|constructor].
      + apply Forall_cons. split; [lia|constructor].
    - cbn [loaded this GeojsonComponent.set_currentGeojson GeojsonComponent.currentGeojson].
      unfold Leaflet.newGeoJSON. cbn [fst]. rewrite Hn.
      unfold isRendered. rewrite reframed_objects, Hobj.
      rewrite list_lookup_middle by reflexivity. reflexivity.
    - split; [cbn; rewrite mapservice_released; exact Hm|].
      split; [cbn; rewrite Hn; reflexivity|].
      split; [reflexivity|].
      split.
      + intros l [= <-]. rewrite app_assoc, elem_of_app, list_elem_of_singleton.
        intros [Hin|]; [|lia].
        rewrite Forall_forall in Hlt. apply Hlt in Hin. lia.
      + apply Forall_app. split.
        * eapply Forall_impl; [exact Hg|]. intros g Hgg. cbv beta in *.
          eapply isGroup_grows; [|exact Hgg].
          rewrite reframed_objects. exact Hobj.
        * apply Forall_cons. split; [|constructor].
          unfold isGroup. rewrite reframed_objects, Hobj.
          rewrite lookup_app_r by (fold n; lia). fold n.
          replace (S n - n) with 1 by lia. reflexivity. }
  split; [rewrite loaded_layerGroup, Hn; reflexivity|].
  rewrite Hobj.
  split.
  { rewrite lookup_app_r by (fold n; lia). fold n.
    replace (S n - n) with 1 by lia. reflexivity. }
  split; [apply list_lookup_middle; reflexivity|].
  split; [cbn; rewrite this_released; reflexivity|].
  intros Hin. rewrite Forall_forall in Hlt. apply Hlt in Hin. lia.
Qed.

Lemma settled_fed (others groups : list Stamp) (cur : option Stamp)
    (v : option GeoJSON) (s : Store) :
  settled others groups cur s -> settled others groups cur (fed v s).
Proof. intros Hs. exact Hs. Qed.

Lemma updates_app (ps qs : list GeoJSON) (s : Store) :
  updates (ps ++ qs) s = (let! _ := updates ps in updates qs) s.
Proof.
  revert s. induction ps as [|p ps IH]; intros s; [reflexivity|].
  cbn [app updates]. unfold bind.
  destruct (input_geojson (Some p) s) as [[[]|e] s1]; [|reflexivity].
  rewrite IH. reflexivity.
Qed.

Lemma updates_settled (others : list Stamp) (ps : list GeoJSON) :
  ∀ (s : Store) (groups : list Stamp) (cur : option Stamp),
    settled others groups cur s ->
    Forall (λ q, malformed q = false) ps ->
    ∃ s' gs cur',
      updates ps s = (Normal tt, s') ∧
      settled others (groups ++ gs) cur' s' ∧
      length gs = length ps ∧
      GeojsonComponent.onEachFeature (this s') = GeojsonComponent.onEachFeature (this s).
Proof.
  induction ps as [|p ps IH]; intros s groups cur Hs Hps.
  - exists s, [], cur. rewrite app_nil_r. auto.
  - apply Forall_cons in Hps. destruct Hps as [Hp Hps].
    destruct (settled_refresh others groups cur (fed (Some p) s)
                (GeojsonComponent.geojson (this s)) p
                (settled_fed _ _ _ _ _ Hs) Hp)
      as (s1 & Hrun & Hs1 & _ & _ & _ & Hcb & _).
    destruct (IH s1 _ _ Hs1 Hps) as (s' & gs & cur' & Hrun' & Hs' & Hlen & Hcb').
    exists s', (S (length (Leaflet.objects (leaflet s))) :: gs), cur'.
    split.
    { cbn [updates]. unfold bind. rewrite input_geojson_run.
      unfold payload_change in Hrun. rewrite Hrun. exact Hrun'. }
    split; [rewrite <- app_assoc in Hs'; exact Hs'|].
    split; [cbn; rewrite Hlen; reflexivity|].
    rewrite Hcb', Hcb. reflexivity.
Qed.

(** C1 (amended): over a sequence of payload updates that the factory
    accepts, from a component with no current layer yet, the refreshes
    leave on the map, after the layers that it held before, one group
    for each refresh (the groups of the earlier refreshes stay
    attached) and exactly one rendered layer; the group of the map
    service is the newest one, a new group, it holds exactly that layer,
    and that layer is the current layer, built from the most recent
    payload. *)
Theorem overlay_after_updates (s : Store) (ps : list GeoJSON) (p : GeoJSON) :
  valid s ->
  MapService.map (mapservice s) = Some Leaflet.TheMap ->
  GeojsonComponent.currentGeojson (this s) = None ->
  Forall (λ q, malformed q = false) (ps ++ [p]) ->
  ∃ s' gs g l,
    updates (ps ++ [p]) s = (Normal tt, s') ∧
    onMap (leaflet s') = onMap (leaflet s) ++ gs ++ [g; l] ∧
    length gs = length ps ∧
    (g ∉ onMap (leaflet s) ++ gs) ∧
    Forall (λ x, isGroup (leaflet s') x = true) (gs ++ [g]) ∧
    isRendered (leaflet s') l = true ∧
    MapService.layerGroup (mapservice s') = Some g ∧
    Leaflet.objects (leaflet s') !! g = Some (Leaflet.FeatureGroup [l]) ∧
    GeojsonComponent.currentGeojson (this s') = Some l ∧
    Leaflet.objects (leaflet s') !! l
      = Some (Leaflet.GeoJsonLayer p (GeojsonComponent.asCluster (this s))
                                   (GeojsonComponent.onEachFeature (this s))).
Proof.
  intros Hv Hm Hc Hall.
  apply Forall_app in Hall. destruct Hall as [Hps Hp].
  apply Forall_cons in Hp. destruct Hp as [Hp _].
  assert (Hs : settled (onMap (leaflet s)) [] None s).
  { unfold settled. repeat split; try assumption; try apply Hv.
    - cbn. rewrite app_nil_r. reflexivity.
    - discriminate.
    - constructor. }
  destruct (updates_settled _ ps s [] None Hs Hps)
    as (s1 & gs & cur1 & Hrun1 & Hs1 & Hlen & Hcb1).
  cbn [app] in Hs1.
  destruct (settled_refresh _ gs cur1 (fed (Some p) s1)
              (GeojsonComponent.geojson (this s1)) p
              (settled_fed _ _ _ _ _ Hs1) Hp)
    as (s' & Hrun & Hs' & Hlg & Hgrp & Hlay & Hcb & Hnew).
  cbn [fed leaflet] in *.
  set (n := length (Leaflet.objects (leaflet s1))) in *.
  exists s', gs, (S n), n.
  destruct Hs' as (Hv' & _ & Hc' & HL' & _ & Hg').
  split.
  { rewrite updates_app. unfold bind at 1. rewrite Hrun1.
    cbn [updates]. unfold bind. rewrite input_geojson_run.
    unfold payload_change in Hrun. rewrite Hrun. reflexivity. }
  split; [rewrite HL', <- app_assoc; reflexivity|].
  split; [exact Hlen|].
  split; [exact Hnew|].
  split; [exact Hg'|].
  split; [destruct Hv' as [_ Hr]; rewrite Hc' in Hr; exact Hr|].
  split; [exact Hlg|].
  split; [exact Hgrp|].
  split; [exact Hc'|].
  rewrite Hlay. cbn [this fed GeojsonComponent.set_geojson GeojsonComponent.onEachFeature].
  rewrite Hcb1. reflexivity.
Qed.

(** ** Further facts: one refresh *)

Lemma ngOnChanges_refreshed (s : Store) (prev : option GeoJSON) (p : GeoJSON) :
  MapService.map (mapservice s) = Some Leaflet.TheMap ->
  malformed p = false ->
  ngOnChanges (payload_change prev p) s = (Normal tt, refreshed prev p s).
Proof. apply ngOnChanges_bound. Qed.

Lemma refreshed_this (prev : option GeoJSON) (p : GeoJSON) (s : Store) :
  this (refreshed prev p s)
  = GeojsonComponent.set_currentGeojson
      (Some (length (Leaflet.objects (leaflet s)))) (this s).
Proof.
  unfold refreshed. rewrite reframed_this. cbn [loaded this].
  unfold Leaflet.newGeoJSON. cbn [fst]. rewrite released_objects, this_released.
  reflexivity.
Qed.

Lemma refreshed_mapservice (prev : option GeoJSON) (p : GeoJSON) (s : Store) :
  mapservice (refreshed prev p s)
  = MapService.set_layerGroup
      (Some (S (length (Leaflet.objects (leaflet s))))) (mapservice s).
Proof.
  unfold refreshed. rewrite reframed_mapservice.
  pose proof (loaded_layerGroup p (released s)) as Hg.
  rewrite released_objects in Hg.
  destruct (mapservice (loaded p (released s))) as [m g] eqn:Hms.
  cbn in Hg. subst g.
  assert (Hmap : MapService.map (mapservice (loaded p (released s)))
                 = MapService.map (mapservice s))
    by (cbn; rewrite mapservice_released; reflexivity).
  rewrite Hms in Hmap. cbn in Hmap. subst m. reflexivity.
Qed.

Lemma refreshed_objects (prev : option GeoJSON) (p : GeoJSON) (s : Store) :
  Leaflet.objects (leaflet (refreshed prev p s))
  = Leaflet.objects (leaflet s)
      ++ [Leaflet.GeoJsonLayer p (GeojsonComponent.asCluster (this s))
                               (GeojsonComponent.onEachFeature (this s));
          Leaflet.FeatureGroup [length (Leaflet.objects (leaflet s))]].
Proof.
  unfold refreshed. rewrite reframed_objects, loaded_leaflet. cbn [Leaflet.objects].
  rewrite released_objects, this_released. reflexivity.
Qed.

Lemma refreshed_emissions (prev : option GeoJSON) (p : GeoJSON) (s : Store) :
  Rx.isStopped (GeojsonComponent.geojsonCharged (this s)) = false ->
  emissions (refreshed prev p s)
  = emissions s ++ [(length (Leaflet.objects (leaflet s)),
                     Rx.observers (GeojsonComponent.geojsonCharged (this s)))].
Proof.
  intros Hopen. unfold refreshed. rewrite reframed_emissions.
  cbn [loaded emissions]. rewrite this_released, Hopen, released_emissions.
  unfold Leaflet.newGeoJSON. cbn [fst]. rewrite released_objects. reflexivity.
Qed.

(** The map after the detachment step, in a store with sound
    references. *)
Lemma released_onMap (s : Store) :
  valid s ->
  onMap (leaflet (released s))
  = filter (λ x, Some x ≠ GeojsonComponent.currentGeojson (this s)) (onMap (leaflet s)).
Proof.
  intros [_ Hr]. unfold released.
  destruct (GeojsonComponent.currentGeojson (this s)) as [old|].
  - cbn [detached leaflet]. unfold Leaflet.Map_removeLayer, Leaflet.hasLayer.
    rewrite (isRendered_members _ _ Hr). fold (onMap (leaflet s)).
    case_bool_decide as Hin.
    + unfold onMap at 1, Leaflet.withLayers. cbn [Leaflet.surface Leaflet._layers].
      apply list_filter_iff. intros x. rewrite list_elem_of_singleton.
      split; intros Hx; congruence.
    + symmetry. apply filter_all. apply Forall_forall. intros x Hx [= ->]. auto.
  - symmetry. apply filter_all. apply Forall_forall. intros x _. discriminate.
Qed.

(** The map after a refresh, in a store with sound references: what was
    there but the layer that was current, then the new group and the new
    layer. *)
Lemma refreshed_onMap (prev : option GeoJSON) (p : GeoJSON) (s : Store) :
  valid s ->
  onMap (leaflet (refreshed prev p s))
  = filter (λ x, Some x ≠ GeojsonComponent.currentGeojson (this s)) (onMap (leaflet s))
      ++ [S (length (Leaflet.objects (leaflet s))); length (Leaflet.objects (leaflet s))].
Proof.
  intros Hv. unfold refreshed. rewrite reframed_onMap, loaded_leaflet.
  unfold onMap at 1. cbn [Leaflet.surface Leaflet._layers].
  rewrite released_objects, (released_onMap s Hv).
  set (n := length (Leaflet.objects (leaflet s))).
  set (L := filter _ _).
  assert (Hlt : Forall (λ x, x < n) L).
  { destruct Hv as [Hv _]. apply Forall_forall. intros x Hx.
    apply list_elem_of_filter in Hx. destruct Hx as [_ Hx].
    rewrite Forall_forall in Hv. apply Hv. exact Hx. }
  rewrite (attach_new L (S n)).
  - rewrite attach_new.
    + rewrite <- app_assoc. reflexivity.
    + rewrite elem_of_app, list_elem_of_singleton. intros [Hin|]; [|lia].
      rewrite Forall_forall in Hlt. apply Hlt in Hin. lia.
  - intros Hin. rewrite Forall_forall in Hlt. apply Hlt in Hin. lia.
Qed.

Lemma refreshed_valid (prev : option GeoJSON) (p : GeoJSON) (s : Store) :
  valid s -> valid (refreshed prev p s).
Proof.
  intros Hv. unfold valid.
  rewrite (refreshed_onMap prev p s Hv), refreshed_objects, refreshed_this, length_app.
  cbn [length GeojsonComponent.set_currentGeojson GeojsonComponent.currentGeojson].
  split.
  - apply Forall_app. split.
    + destruct Hv as [Hv _]. apply Forall_forall. intros x Hx.
      apply list_elem_of_filter in Hx. destruct Hx as [_ Hx].
      rewrite Forall_forall in Hv. apply Hv in Hx. lia.
    + repeat constructor; lia.
  - unfold isRendered. rewrite refreshed_objects.
    rewrite list_lookup_middle by reflexivity. reflexivity.
Qed.

(** The three ways in which the zoom step of a refresh ends. *)
Lemma refreshed_cases (prev : option GeoJSON) (p : GeoJSON) (s : Store) :
  refreshed prev p s
  = if defined prev && GeojsonComponent.zoomOnLayer (this s) then
      match GeojsonComponent.map (this s), extentOf p with
      | Some _, Some b =>
          mutated {| Leaflet.objects := Leaflet.objects (leaflet (loaded p (released s)));
                     Leaflet.surface :=
                       {| Leaflet._layers := onMap (leaflet (loaded p (released s)));
                          Leaflet.viewport := viewOf b |} |}
                  (loaded p (released s))
      | _, _ => logged "no layer in featuregroup" (loaded p (released s))
      end
    else loaded p (released s).
Proof.
  unfold refreshed, reframed.
  replace (GeojsonComponent.zoomOnLayer (this (loaded p (released s))))
    with (GeojsonComponent.zoomOnLayer (this s))
    by (cbn; rewrite this_released; reflexivity).
  replace (GeojsonComponent.map (this (loaded p (released s))))
    with (GeojsonComponent.map (this s))
    by (cbn; rewrite this_released; reflexivity).
  rewrite loaded_layerGroup, loaded_bounds.
  destruct (defined prev && GeojsonComponent.zoomOnLayer (this s)); [|reflexivity].
  destruct (GeojsonComponent.map (this s)); [|reflexivity].
  destruct (extentOf p); reflexivity.
Qed.

Lemma loaded_viewport (p : GeoJSON) (s : Store) :
  Leaflet.viewport (Leaflet.surface (leaflet (loaded p (released s))))
  = Leaflet.viewport (Leaflet.surface (leaflet s)).
Proof. rewrite loaded_leaflet. apply released_viewport. Qed.

Lemma loaded_console (p : GeoJSON) (s : Store) :
  console (loaded p (released s)) = console s.
Proof. cbn. apply released_console. Qed.

Lemma refreshed_viewport (prev : option GeoJSON) (p : GeoJSON) (s : Store) :
  Leaflet.viewport (Leaflet.surface (leaflet (refreshed prev p s)))
  = if defined prev && GeojsonComponent.zoomOnLayer (this s) then
      match GeojsonComponent.map (this s), extentOf p with
      | Some _, Some b => viewOf b
      | _, _ => Leaflet.viewport (Leaflet.surface (leaflet s))
      end
    else Leaflet.viewport (Leaflet.surface (leaflet s)).
Proof.
  rewrite refreshed_cases.
  destruct (defined prev && GeojsonComponent.zoomOnLayer (this s));
    [|apply loaded_viewport].
  destruct (GeojsonComponent.map (this s)); [|apply loaded_viewport].
  destruct (extentOf p); [reflexivity|apply loaded_viewport].
Qed.

Lemma refreshed_console (prev : option GeoJSON) (p : GeoJSON) (s : Store) :
  console (refreshed prev p s)
  = console s ++
    if defined prev && GeojsonComponent.zoomOnLayer (this s) then
      match GeojsonComponent.map (this s), extentOf p with
      | Some _, Some b => []
      | _, _ => ["no layer in featuregroup"]
      end
    else [].
Proof.
  rewrite refreshed_cases.
  destruct (defined prev && GeojsonComponent.zoomOnLayer (this s));
    [|rewrite app_nil_r; apply loaded_console].
  destruct (GeojsonComponent.map (this s)) as [m|];
    [|cbn [logged console]; rewrite loaded_console; reflexivity].
  destruct (extentOf p);
    [|cbn [logged console]; rewrite loaded_console; reflexivity].
  cbn [mutated console]. rewrite loaded_console, app_nil_r. reflexivity.
Qed.

(** ** Further facts: the zoom step *)

(** X1: the zoom step goes through [this.map], which only [ngOnInit]
    sets.  In a component that does not hold the map, a refresh with a
    previous value installs the overlay on the map of the map service,
    leaves the viewport where it was and writes the line of the empty
    group on the console, whatever the bounds of the new group are. *)
Theorem zoom_needs_bound_handle (s : Store) (prev p : GeoJSON) :
  GeojsonComponent.map (this s) = None ->
  GeojsonComponent.zoomOnLayer (this s) = true ->
  MapService.map (mapservice s) = Some Leaflet.TheMap ->
  malformed p = false ->
  ∃ s' g l,
    ngOnChanges (payload_change (Some prev) p) s = (Normal tt, s') ∧
    Leaflet.viewport (Leaflet.surface (leaflet s'))
      = Leaflet.viewport (Leaflet.surface (leaflet s)) ∧
    console s' = console s ++ ["no layer in featuregroup"] ∧
    MapService.layerGroup (mapservice s') = Some g ∧
    GeojsonComponent.currentGeojson (this s') = Some l ∧
    Leaflet.getBounds (leaflet s') g = extentOf p ∧
    g ∈ onMap (leaflet s') ∧ l ∈ onMap (leaflet s').
Proof.
  intros Hmap Hz Hm Hp.
  set (n := length (Leaflet.objects (leaflet s))).
  exists (refreshed (Some prev) p s), (S n), n.
  split; [apply ngOnChanges_refreshed; assumption|].
  split; [rewrite refreshed_viewport, Hmap, Hz; reflexivity|].
  split; [rewrite refreshed_console, Hmap, Hz; reflexivity|].
  split; [rewrite refreshed_mapservice; reflexivity|].
  split; [rewrite refreshed_this; reflexivity|].
  assert (Hx : refreshed (Some prev) p s
               = logged "no layer in featuregroup" (loaded p (released s))).
  { rewrite refreshed_cases, Hmap, Hz. reflexivity. }
  rewrite Hx. cbn [logged leaflet].
  assert (Hn : length (Leaflet.objects (leaflet (released s))) = n)
    by (unfold n; rewrite released_objects; reflexivity).
  split; [rewrite <- Hn; apply loaded_bounds|].
  rewrite loaded_leaflet, Hn. unfold onMap. cbn [Leaflet.surface Leaflet._layers].
  rewrite !elem_of_attach. auto.
Qed.

(** X2: with the [zoomOnLayer] input unset, no change event, whatever
    its outcome, moves the viewport or writes on the console. *)
Theorem no_zoom_when_disabled (c : SimpleChanges) (s : Store) :
  GeojsonComponent.zoomOnLayer (this s) = false ->
  Leaflet.viewport (Leaflet.surface (leaflet (snd (ngOnChanges c s))))
    = Leaflet.viewport (Leaflet.surface (leaflet s)) ∧
  console (snd (ngOnChanges c s)) = console s.
Proof.
  intros Hz.
  destruct c as [[[prev [p|]]|] others]; try (split; reflexivity).
  change (ngOnChanges _ s) with (ngOnChanges (payload_change prev p) s).
  destruct (MapService.map (mapservice s)) as [[]|] eqn:Hm.
  - destruct (malformed p) eqn:Hp.
    + rewrite ngOnChanges_malformed by assumption. cbn [snd].
      split; [apply released_viewport|apply released_console].
    + rewrite ngOnChanges_refreshed by assumption. cbn [snd].
      rewrite refreshed_viewport, refreshed_console, Hz, andb_false_r, app_nil_r.
      split; reflexivity.
  - rewrite ngOnChanges_unbound by assumption.
    destruct (GeojsonComponent.currentGeojson (this s)); [split; reflexivity|].
    destruct (malformed p); split; reflexivity.
Qed.

(** ** Further facts: loads and refreshes that go wrong *)

Lemma loaded_onMap (p : GeoJSON) (s : Store) :
  valid s ->
  onMap (leaflet (loaded p s))
  = onMap (leaflet s)
      ++ [S (length (Leaflet.objects (leaflet s))); length (Leaflet.objects (leaflet s))].
Proof.
  intros [Hv _]. rewrite loaded_leaflet.
  unfold onMap at 1. cbn [Leaflet.surface Leaflet._layers].
  set (n := length (Leaflet.objects (leaflet s))) in *.
  rewrite Forall_forall in Hv.
  rewrite (attach_new (onMap (leaflet s)) (S n)).
  - rewrite attach_new.
    + rewrite <- app_assoc. reflexivity.
    + rewrite elem_of_app, list_elem_of_singleton. intros [Hin|]; [|lia].
      apply Hv in Hin. lia.
  - intros Hin. apply Hv in Hin. lia.
Qed.

Lemma loaded_valid (p : GeoJSON) (s : Store) : valid s -> valid (loaded p s).
Proof.
  intros Hv. unfold valid. rewrite (loaded_onMap p s Hv), loaded_leaflet.
  cbn [Leaflet.objects]. rewrite length_app. cbn [length].
  split.
  - apply Forall_app. split.
    + destruct Hv as [Hv _]. eapply Forall_impl; [exact Hv|].
      intros x Hx. cbv beta in *. lia.
    + repeat constructor; lia.
  - cbn [loaded this GeojsonComponent.set_currentGeojson GeojsonComponent.currentGeojson].
    unfold Leaflet.newGeoJSON. cbn [fst]. unfold isRendered. cbn [Leaflet.objects].
    rewrite list_lookup_middle by reflexivity. reflexivity.
Qed.

(** X3: [loadGeojson] itself detaches nothing.  Called while a layer is
    current and on the map, it leaves that layer on the map beside the
    new one, two rendered layers, and the component forgets the first:
    the next refresh detaches the newer layer only. *)
Theorem loadGeojson_never_detaches (s : Store) (prev : option GeoJSON)
    (p q : GeoJSON) (old : Stamp) :
  valid s ->
  MapService.map (mapservice s) = Some Leaflet.TheMap ->
  malformed p = false ->
  malformed q = false ->
  GeojsonComponent.currentGeojson (this s) = Some old ->
  old ∈ onMap (leaflet s) ->
  ∃ s1 s2 new,
    loadGeojson p s = (Normal tt, s1) ∧
    (∀ x, x ∈ onMap (leaflet s) -> x ∈ onMap (leaflet s1)) ∧
    GeojsonComponent.currentGeojson (this s1) = Some new ∧
    new ≠ old ∧
    old ∈ onMap (leaflet s1) ∧ new ∈ onMap (leaflet s1) ∧
    isRendered (leaflet s1) old = true ∧ isRendered (leaflet s1) new = true ∧
    ngOnChanges (payload_change prev q) s1 = (Normal tt, s2) ∧
    old ∈ onMap (leaflet s2) ∧ (new ∉ onMap (leaflet s2)).
Proof.
  intros Hv Hm Hp Hq Hc Hin.
  set (n := length (Leaflet.objects (leaflet s))).
  assert (Hold : isRendered (leaflet s) old = true)
    by (destruct Hv as [_ Hr]; rewrite Hc in Hr; exact Hr).
  pose proof (isRendered_lt _ _ Hold) as Hlt. fold n in Hlt.
  pose proof (loaded_valid p s Hv) as Hv1.
  assert (Hm1 : MapService.map (mapservice (loaded p s)) = Some Leaflet.TheMap)
    by exact Hm.
  assert (Hobj1 : Leaflet.objects (leaflet (loaded p s))
                  = Leaflet.objects (leaflet s)
                      ++ [Leaflet.GeoJsonLayer p (GeojsonComponent.asCluster (this s))
                                               (GeojsonComponent.onEachFeature (this s));
                          Leaflet.FeatureGroup [n]])
    by (rewrite loaded_leaflet; reflexivity).
  exists (loaded p s), (refreshed prev q (loaded p s)), n.
  split; [apply loadGeojson_bound; assumption|].
  rewrite (loaded_onMap p s Hv). fold n.
  split; [intros x Hx; rewrite elem_of_app; auto|].
  split; [reflexivity|].
  split; [lia|].
  split; [rewrite elem_of_app; auto|].
  split; [rewrite elem_of_app; right; right; left|].
  split.
  { unfold isRendered in *. rewrite Hobj1.
    destruct (Leaflet.objects (leaflet s) !! old) as [o|] eqn:Ho; [|discriminate].
    rewrite (lookup_app_l_Some _ _ _ _ Ho). exact Hold. }
  split.
  { unfold isRendered. rewrite Hobj1, list_lookup_middle by reflexivity. reflexivity. }
  split; [apply ngOnChanges_refreshed; assumption|].
  rewrite (refreshed_onMap prev q _ Hv1), (loaded_onMap p s Hv), Hobj1, length_app.
  fold n. cbn [length loaded this GeojsonComponent.set_currentGeojson
               GeojsonComponent.currentGeojson Leaflet.newGeoJSON fst].
  fold n. split.
  - apply elem_of_app. left. apply list_elem_of_filter. split.
    + intros [= ->]. lia.
    + apply elem_of_app. auto.
  - rewrite elem_of_app, list_elem_of_filter.
    intros [[Hne _]|Hx]; [congruence|].
    apply elem_of_cons in Hx. destruct Hx as [Hx|Hx]; [lia|].
    apply list_elem_of_singleton in Hx. lia.
Qed.






Lemma stranded_valid (p : GeoJSON) (s : Store) : valid s -> valid (stranded p s).
Proof.
  intros [Hv _]. unfold valid, stranded, Leaflet.newFeatureGroup, Leaflet.newGeoJSON.
  cbn [leaflet this snd fst Leaflet.objects Leaflet.surface onMap
       GeojsonComponent.set_currentGeojson GeojsonComponent.currentGeojson].
  split.
  - unfold onMap. cbn [Leaflet.surface]. eapply Forall_impl; [exact Hv|].
    intros x Hx. cbv beta in *. rewrite !length_app. cbn [length]. lia.
  - unfold isRendered. cbn [Leaflet.objects]. rewrite <- app_assoc. cbn [app].
    rewrite list_lookup_middle by reflexivity. reflexivity.
Qed.

(** X5: a first refresh that came before the map strands its layer.
    When the map service has its map, the next refresh succeeds: the map
    gets one new group and the layer of the new payload, and never the
    layer of the first payload nor its group, although that layer was
    published to the subscribers like the new one. *)
Theorem refresh_after_map_arrives (s : Store) (prev0 prev : option GeoJSON)
    (p0 p : GeoJSON) :
  valid s ->
  MapService.map (mapservice s) = None ->
  GeojsonComponent.currentGeojson (this s) = None ->
  Rx.isStopped (GeojsonComponent.geojsonCharged (this s)) = false ->
  malformed p0 = false ->
  malformed p = false ->
  ∃ s1 s2 lost g l,
    ngOnChanges (payload_change prev0 p0) s = (Throw TypeError, s1) ∧
    ngOnChanges (payload_change prev p) (map_arrives s1) = (Normal tt, s2) ∧
    onMap (leaflet s2) = onMap (leaflet s) ++ [g; l] ∧
    MapService.layerGroup (mapservice s2) = Some g ∧
    GeojsonComponent.currentGeojson (this s2) = Some l ∧
    Leaflet.objects (leaflet s2) !! l
      = Some (Leaflet.GeoJsonLayer p (GeojsonComponent.asCluster (this s))
                                   (GeojsonComponent.onEachFeature (this s))) ∧
    Leaflet.objects (leaflet s2) !! lost
      = Some (Leaflet.GeoJsonLayer p0 (GeojsonComponent.asCluster (this s))
                                    (GeojsonComponent.onEachFeature (this s))) ∧
    (lost ∉ onMap (leaflet s2)) ∧
    emissions s2
      = emissions s
          ++ [(lost, Rx.observers (GeojsonComponent.geojsonCharged (this s)));
              (l, Rx.observers (GeojsonComponent.geojsonCharged (this s)))].
Proof.
  intros Hv Hm Hc Hopen Hp0 Hp.
  set (n := length (Leaflet.objects (leaflet s))).
  pose proof (stranded_valid p0 s Hv) as Hv1.
  assert (Hobj1 : Leaflet.objects (leaflet (map_arrives (stranded p0 s)))
                  = Leaflet.objects (leaflet s)
                      ++ [Leaflet.GeoJsonLayer p0 (GeojsonComponent.asCluster (this s))
                                               (GeojsonComponent.onEachFeature (this s));
                          Leaflet.FeatureGroup []]).
  { unfold stranded, Leaflet.newFeatureGroup, Leaflet.newGeoJSON.
    cbn [map_arrives leaflet snd Leaflet.objects]. rewrite <- app_assoc. reflexivity. }
  assert (Hlen1 : length (Leaflet.objects (leaflet (map_arrives (stranded p0 s)))) = S (S n))
    by (rewrite Hobj1, length_app; cbn [length]; fold n; lia).
  assert (Hoff : n ∉ onMap (leaflet s))
    by (pose proof (valid_new_off_map s 0 Hv) as Hn0; rewrite Nat.add_0_r in Hn0; exact Hn0).
  exists (stranded p0 s), (refreshed prev p (map_arrives (stranded p0 s))),
         n, (S (S (S n))), (S (S n)).
  split; [rewrite ngOnChanges_unbound, Hc, Hp0 by assumption; reflexivity|].
  split; [apply ngOnChanges_refreshed; [reflexivity|assumption]|].
  assert (Hmapped : onMap (leaflet (refreshed prev p (map_arrives (stranded p0 s))))
                    = onMap (leaflet s) ++ [S (S (S n)); S (S n)]).
  { rewrite (refreshed_onMap prev p (map_arrives (stranded p0 s)) Hv1), Hlen1.
    f_equal. apply filter_all. apply Forall_forall. intros x Hx. cbn. fold n.
    intros [= ->]. apply Hoff. exact Hx. }
  split; [exact Hmapped|].
  split; [rewrite refreshed_mapservice, Hlen1; reflexivity|].
  split; [rewrite refreshed_this, Hlen1; reflexivity|].
  rewrite refreshed_objects, Hlen1, Hobj1.
  split.
  { rewrite list_lookup_middle; [reflexivity|].
    rewrite length_app. cbn [length]. fold n. lia. }
  split.
  { rewrite <- app_assoc. cbn [app].
    rewrite list_lookup_middle by reflexivity. reflexivity. }
  split.
  { rewrite Hmapped, elem_of_app. intros [Hx|Hx]; [auto|].
    apply elem_of_cons in Hx. destruct Hx as [Hx|Hx]; [lia|].
    apply list_elem_of_singleton in Hx. lia. }
  rewrite refreshed_emissions by (cbn; exact Hopen).
  rewrite Hlen1. cbn [map_arrives stranded emissions this
                      GeojsonComponent.set_currentGeojson GeojsonComponent.geojsonCharged].
  rewrite Hopen. unfold Leaflet.newGeoJSON. cbn [fst]. fold n.
  rewrite <- app_assoc. reflexivity.
Qed.

(** ** Further facts: sequences of updates *)

Lemma input_geojson_refreshed (s : Store) (p : GeoJSON) :
  MapService.map (mapservice s) = Some Leaflet.TheMap ->
  malformed p = false ->
  input_geojson (Some p) s
  = (Normal tt, refreshed (GeojsonComponent.geojson (this s)) p (fed (Some p) s)).
Proof.
  intros Hm Hp. rewrite input_geojson_run.
  apply (ngOnChanges_refreshed (fed (Some p) s)); assumption.
Qed.

Lemma updates_emissions (ps : list GeoJSON) :
  ∀ s : Store,
    MapService.map (mapservice s) = Some Leaflet.TheMap ->
    Rx.isStopped (GeojsonComponent.geojsonCharged (this s)) = false ->
    Forall (λ q, malformed q = false) ps ->
    ∃ s' ls extra,
      updates ps s = (Normal tt, s') ∧
      emissions s'
        = emissions s
            ++ ((λ l, (l, Rx.observers (GeojsonComponent.geojsonCharged (this s)))) <$> ls) ∧
      Leaflet.objects (leaflet s') = Leaflet.objects (leaflet s) ++ extra ∧
      Forall2 (λ l q, Leaflet.objects (leaflet s') !! l
                      = Some (Leaflet.GeoJsonLayer q (GeojsonComponent.asCluster (this s))
                                                   (GeojsonComponent.onEachFeature (this s))))
              ls ps.
Proof.
  induction ps as [|p ps IH]; intros s Hm Hopen Hps.
  - exists s, [], []. rewrite !app_nil_r. repeat split. constructor.
  - apply Forall_cons in Hps. destruct Hps as [Hp Hps].
    set (s1 := refreshed (GeojsonComponent.geojson (this s)) p (fed (Some p) s)).
    assert (Hthis : this s1
                    = GeojsonComponent.set_currentGeojson
                        (Some (length (Leaflet.objects (leaflet s))))
                        (GeojsonComponent.set_geojson (Some p) (this s)))
      by (unfold s1; rewrite refreshed_this; reflexivity).
    assert (Hm1 : MapService.map (mapservice s1) = Some Leaflet.TheMap)
      by (unfold s1; rewrite refreshed_mapservice; exact Hm).
    assert (Hopen1 : Rx.isStopped (GeojsonComponent.geojsonCharged (this s1)) = false)
      by (rewrite Hthis; exact Hopen).
    destruct (IH s1 Hm1 Hopen1 Hps) as (s' & ls & extra & Hrun & Hem & Hobj & Hall).
    assert (Hobj1 : Leaflet.objects (leaflet s1)
                    = Leaflet.objects (leaflet s)
                        ++ [Leaflet.GeoJsonLayer p (GeojsonComponent.asCluster (this s))
                                                 (GeojsonComponent.onEachFeature (this s));
                            Leaflet.FeatureGroup [length (Leaflet.objects (leaflet s))]])
      by (unfold s1; rewrite refreshed_objects; reflexivity).
    exists s', (length (Leaflet.objects (leaflet s)) :: ls),
      ([Leaflet.GeoJsonLayer p (GeojsonComponent.asCluster (this s))
                             (GeojsonComponent.onEachFeature (this s));
        Leaflet.FeatureGroup [length (Leaflet.objects (leaflet s))]] ++ extra).
    split.
    { cbn [updates]. unfold bind. rewrite input_geojson_refreshed by assumption.
      exact Hrun. }
    split.
    { rewrite Hem. unfold s1 at 1. rewrite refreshed_emissions by exact Hopen.
      rewrite Hthis. cbn [fmap list_fmap fed emissions leaflet this
                          GeojsonComponent.set_currentGeojson GeojsonComponent.set_geojson
                          GeojsonComponent.geojsonCharged].
      rewrite <- app_assoc. reflexivity. }
    split; [rewrite Hobj, Hobj1, <- app_assoc; reflexivity|].
    constructor.
    + rewrite Hobj, Hobj1, <- app_assoc. cbn [app].
      apply list_lookup_middle. reflexivity.
    + rewrite Hthis in Hall. exact Hall.
Qed.

(** X6: over a sequence of payload updates that the factory accepts,
    the component publishes once per payload, in the order of the
    payloads, each time the layer made from that payload, to the
    subscribers of the subject. *)
Theorem emissions_follow_updates (s : Store) (ps : list GeoJSON) :
  MapService.map (mapservice s) = Some Leaflet.TheMap ->
  Rx.isStopped (GeojsonComponent.geojsonCharged (this s)) = false ->
  Forall (λ q, malformed q = false) ps ->
  ∃ s' ls,
    updates ps s = (Normal tt, s') ∧
    emissions s'
      = emissions s
          ++ ((λ l, (l, Rx.observers (GeojsonComponent.geojsonCharged (this s)))) <$> ls) ∧
    Forall2 (λ l q, Leaflet.objects (leaflet s') !! l
                    = Some (Leaflet.GeoJsonLayer q (GeojsonComponent.asCluster (this s))
                                                 (GeojsonComponent.onEachFeature (this s))))
            ls ps.
Proof.
  intros Hm Hopen Hps.
  destruct (updates_emissions ps s Hm Hopen Hps) as (s' & ls & extra & Hrun & Hem & _ & Hall).
  exists s', ls. auto.
Qed.

Lemma updates_zoom (ps : list GeoJSON) :
  ∀ (s : Store) (q : GeoJSON),
    MapService.map (mapservice s) = Some Leaflet.TheMap ->
    GeojsonComponent.map (this s) = Some Leaflet.TheMap ->
    GeojsonComponent.zoomOnLayer (this s) = true ->
    GeojsonComponent.geojson (this s) = Some q ->
    Forall (λ q, malformed q = false) ps ->
    ∃ s', updates ps s = (Normal tt, s') ∧
          Leaflet.viewport (Leaflet.surface (leaflet s'))
            = zoomed (Leaflet.viewport (Leaflet.surface (leaflet s))) ps ∧
          console s' = console s ++ complaints ps.
Proof.
  induction ps as [|p ps IH]; intros s q Hm Hmap Hz Hq Hps.
  - exists s. cbn. rewrite app_nil_r. auto.
  - apply Forall_cons in Hps. destruct Hps as [Hp Hps].
    set (s1 := refreshed (GeojsonComponent.geojson (this s)) p (fed (Some p) s)).
    assert (Hthis : this s1
                    = GeojsonComponent.set_currentGeojson
                        (Some (length (Leaflet.objects (leaflet s))))
                        (GeojsonComponent.set_geojson (Some p) (this s)))
      by (unfold s1; rewrite refreshed_this; reflexivity).
    assert (Hm1 : MapService.map (mapservice s1) = Some Leaflet.TheMap)
      by (unfold s1; rewrite refreshed_mapservice; exact Hm).
    destruct (IH s1 p Hm1) as (s' & Hrun & Hview & Hcon);
      try (rewrite Hthis; assumption); try (rewrite Hthis; reflexivity); [assumption|].
    exists s'.
    split.
    { cbn [updates]. unfold bind. rewrite input_geojson_refreshed by assumption.
      exact Hrun. }
    unfold s1 in Hview, Hcon. rewrite refreshed_viewport in Hview.
    rewrite refreshed_console in Hcon.
    cbn [fed this leaflet console GeojsonComponent.set_geojson GeojsonComponent.zoomOnLayer
         GeojsonComponent.map] in Hview, Hcon.
    rewrite Hq, Hz, Hmap in Hview, Hcon. cbn [defined andb] in Hview, Hcon.
    split.
    + rewrite Hview. unfold zoomed. cbn [foldl]. destruct (extentOf p); reflexivity.
    + rewrite Hcon, <- app_assoc. unfold complaints. cbn [flat_map].
      destruct (extentOf p); reflexivity.
Qed.

(** X7: in the order of Angular (the first change, [ngOnInit], then the
    later changes), with [zoomOnLayer] set and the map there from the
    start, the first payload leaves the viewport and each later payload
    moves it to its extent when it has one; a later payload without
    extent leaves it and writes one line on the console. *)
Theorem viewport_follows_updates (s : Store) (p0 : GeoJSON) (ps : list GeoJSON) :
  MapService.map (mapservice s) = Some Leaflet.TheMap ->
  GeojsonComponent.zoomOnLayer (this s) = true ->
  GeojsonComponent.geojson (this s) = None ->
  Forall (λ q, malformed q = false) (p0 :: ps) ->
  ∃ s',
    (let! _ := input_geojson (Some p0) in let! _ := ngOnInit in updates ps) s
      = (Normal tt, s') ∧
    Leaflet.viewport (Leaflet.surface (leaflet s'))
      = zoomed (Leaflet.viewport (Leaflet.surface (leaflet s))) ps ∧
    console s' = console s ++ complaints ps.
Proof.
  intros Hm Hz Hg Hall.
  apply Forall_cons in Hall. destruct Hall as [Hp0 Hps].
  set (s1 := refreshed None p0 (fed (Some p0) s)).
  assert (Hthis : this s1
                  = GeojsonComponent.set_currentGeojson
                      (Some (length (Leaflet.objects (leaflet s))))
                      (GeojsonComponent.set_geojson (Some p0) (this s)))
    by (unfold s1; rewrite refreshed_this; reflexivity).
  assert (Hm1 : MapService.map (mapservice s1) = Some Leaflet.TheMap)
    by (unfold s1; rewrite refreshed_mapservice; exact Hm).
  destruct (updates_zoom ps (snd (ngOnInit s1)) p0) as (s' & Hrun & Hview & Hcon);
    try assumption.
  - change (GeojsonComponent.zoomOnLayer (this s1) = true). rewrite Hthis. exact Hz.
  - change (GeojsonComponent.geojson (this s1) = Some p0). rewrite Hthis. reflexivity.
  - exists s'. split.
    + unfold bind at 1. rewrite input_geojson_refreshed by assumption.
      rewrite Hg. fold s1. unfold bind at 1.
      change (ngOnInit s1) with (Normal tt, snd (ngOnInit s1)). exact Hrun.
    + cbn [ngOnInit] in Hview, Hcon.
      change (leaflet (snd (ngOnInit s1))) with (leaflet s1) in Hview.
      change (console (snd (ngOnInit s1))) with (console s1) in Hcon.
      unfold s1 in Hview, Hcon.
      rewrite refreshed_viewport in Hview. rewrite refreshed_console in Hcon.
      cbn [defined andb] in Hview, Hcon. rewrite app_nil_r in Hcon.
      split; assumption.
Qed.

(** X8: setting the input back to [undefined] does not clear the map:
    the refresh is skipped and the overlay stays.  The payload that
    comes next replaces it, and is handled as a first payload: the
    viewport does not move and nothing is written on the console,
    whatever [zoomOnLayer] says. *)
Theorem cleared_input_keeps_overlay (s : Store) (p : GeoJSON) (old : Stamp) :
  valid s ->
  MapService.map (mapservice s) = Some Leaflet.TheMap ->
  malformed p = false ->
  GeojsonComponent.currentGeojson (this s) = Some old ->
  old ∈ onMap (leaflet s) ->
  input_geojson None s = (Normal tt, fed None s) ∧
  old ∈ onMap (leaflet (fed None s)) ∧
  GeojsonComponent.currentGeojson (this (fed None s)) = Some old ∧
  ∃ s' l,
    input_geojson (Some p) (fed None s) = (Normal tt, s') ∧
    Leaflet.viewport (Leaflet.surface (leaflet s'))
      = Leaflet.viewport (Leaflet.surface (leaflet s)) ∧
    console s' = console s ∧
    (old ∉ onMap (leaflet s')) ∧
    GeojsonComponent.currentGeojson (this s') = Some l ∧
    l ∈ onMap (leaflet s').
Proof.
  intros Hv Hm Hp Hc Hin.
  split; [reflexivity|]. split; [exact Hin|]. split; [exact Hc|].
  set (n := length (Leaflet.objects (leaflet s))).
  assert (Hlt : old < n).
  { destruct Hv as [_ Hr]. rewrite Hc in Hr. apply isRendered_lt in Hr. exact Hr. }
  exists (refreshed None p (fed (Some p) (fed None s))), n.
  split; [apply (input_geojson_refreshed (fed None s)); assumption|].
  split; [rewrite refreshed_viewport; reflexivity|].
  split; [rewrite refreshed_console; cbn; apply app_nil_r|].
  rewrite (refreshed_onMap None p (fed (Some p) (fed None s)) Hv).
  cbn [fed leaflet this GeojsonComponent.set_geojson GeojsonComponent.currentGeojson].
  rewrite Hc. fold n.
  split.
  { rewrite elem_of_app, list_elem_of_filter. intros [[Hne _]|Hx]; [congruence|].
    apply elem_of_cons in Hx. destruct Hx as [Hx|Hx]; [lia|].
    apply list_elem_of_singleton in Hx. lia. }
  split; [rewrite refreshed_this; reflexivity|].
  rewrite elem_of_app. right. right. left.
Qed.

(** ** Further facts: invariants *)

Lemma released_valid (s : Store) : valid s -> valid (released s).
Proof.
  intros Hv. unfold valid.
  rewrite (released_onMap s Hv), released_objects, this_released.
  destruct Hv as [Hv Hr]. split.
  - apply Forall_forall. intros x Hx. apply list_elem_of_filter in Hx.
    rewrite Forall_forall in Hv. apply Hv. tauto.
  - destruct (GeojsonComponent.currentGeojson (this s)); [|exact I].
    unfold isRendered in *. rewrite released_objects. exact Hr.
Qed.

Lemma ngOnChanges_valid (c : SimpleChanges) (s : Store) :
  valid s -> valid (snd (ngOnChanges c s)).
Proof.
  intros Hv.
  destruct c as [[[prev [p|]]|] others]; try exact Hv.
  change (ngOnChanges _ s) with (ngOnChanges (payload_change prev p) s).
  destruct (MapService.map (mapservice s)) as [[]|] eqn:Hm.
  - destruct (malformed p) eqn:Hp.
    + rewrite ngOnChanges_malformed by assumption. apply released_valid, Hv.
    + rewrite ngOnChanges_refreshed by assumption. apply refreshed_valid, Hv.
  - rewrite ngOnChanges_unbound by assumption.
    destruct (GeojsonComponent.currentGeojson (this s)) eqn:Hc; [exact Hv|].
    destruct (malformed p); [exact Hv|]. apply stranded_valid, Hv.
Qed.

(** X9: the references of the component stay sound through its whole
    life: after any sequence of lifecycle events, whatever their
    outcomes, every layer on the map is an existing object and the
    current layer, if any, is a layer that the factory made. *)
Theorem host_keeps_valid (events : list Hook) (s : Store) :
  valid s -> valid (host events s).
Proof.
  revert s. induction events as [|h rest IH]; intros s Hv; [exact Hv|].
  cbn [host]. apply IH.
  destruct h as [c| |]; [apply ngOnChanges_valid, Hv|exact Hv|exact Hv].
Qed.

Lemma holds_refreshed (others groups : list Stamp) (cur : option Stamp)
    (s : Store) (prev : option GeoJSON) (p : GeoJSON) :
  settled others groups cur s ->
  Forall (holds (leaflet s) cur) groups ->
  Forall (retains (leaflet (refreshed prev p s))) groups ∧
  holds (leaflet (refreshed prev p s))
        (Some (length (Leaflet.objects (leaflet s))))
        (S (length (Leaflet.objects (leaflet s)))).
Proof.
  intros (Hv & Hm & Hc & HL & Hfresh & Hg) Hh.
  set (n := length (Leaflet.objects (leaflet s))).
  assert (Hmap : onMap (leaflet (refreshed prev p s)) = others ++ groups ++ [S n; n]).
  { rewrite (refreshed_onMap prev p s Hv), Hc, HL. fold n.
    rewrite (app_assoc others groups (option_list cur)), filter_app.
    rewrite (app_assoc others groups [S n; n]). f_equal.
    destruct cur as [l|].
    - change (option_list (Some l)) with [l].
      rewrite filter_cons_False by (intros Hn; apply Hn; reflexivity).
      rewrite filter_nil, app_nil_r.
      apply filter_all. apply Forall_forall. intros x Hx [= ->].
      apply (Hfresh l eq_refl), Hx.
    - change (option_list None) with (@nil nat). rewrite filter_nil, app_nil_r.
      apply filter_all. apply Forall_forall. intros x _. discriminate. }
  split.
  - eapply Forall_impl; [exact Hh|]. intros g (l & Hgl & Hr & Hl).
    pose proof (isRendered_lt _ _ Hr) as Hlt. fold n in Hlt.
    exists l. split; [|split].
    + rewrite refreshed_objects. apply lookup_app_l_Some. exact Hgl.
    + unfold isRendered in *. rewrite refreshed_objects.
      destruct (Leaflet.objects (leaflet s) !! l) as [o|] eqn:Ho; [|discriminate].
      rewrite (lookup_app_l_Some _ _ _ _ Ho). exact Hr.
    + rewrite Hmap, app_assoc, elem_of_app. intros [Hx|Hx].
      * destruct Hl as [Hl|Hl].
        -- apply (Hfresh l Hl), Hx.
        -- apply Hl. rewrite HL, app_assoc, elem_of_app. auto.
      * apply elem_of_cons in Hx. destruct Hx as [Hx|Hx]; [lia|].
        apply list_elem_of_singleton in Hx. lia.
  - exists n. split; [|split].
    + rewrite refreshed_objects. fold n. rewrite lookup_app_r by (fold n; lia).
      fold n. replace (S n - n) with 1 by lia. reflexivity.
    + unfold isRendered. rewrite refreshed_objects.
      rewrite list_lookup_middle by reflexivity. reflexivity.
    + left. reflexivity.
Qed.

Lemma retains_holds (w : Leaflet.World) (cur : option Stamp) (g : Stamp) :
  retains w g -> holds w cur g.
Proof. intros (l & Hg & Hr & Hl). exists l. auto. Qed.

Lemma updates_holds (others : list Stamp) (ps : list GeoJSON) :
  ∀ (s : Store) (groups : list Stamp) (cur : option Stamp),
    settled others groups cur s ->
    Forall (holds (leaflet s) cur) groups ->
    Forall (λ q, malformed q = false) ps ->
    ∃ s' gs cur',
      updates ps s = (Normal tt, s') ∧
      settled others (groups ++ gs) cur' s' ∧
      Forall (holds (leaflet s') cur') (groups ++ gs) ∧
      length gs = length ps.
Proof.
  induction ps as [|p ps IH]; intros s groups cur Hs Hh Hps.
  - exists s, [], cur. rewrite app_nil_r. auto.
  - apply Forall_cons in Hps. destruct Hps as [Hp Hps].
    pose proof (settled_fed _ _ _ (Some p) _ Hs) as Hsf.
    destruct (settled_refresh others groups cur (fed (Some p) s)
                (GeojsonComponent.geojson (this s)) p Hsf Hp)
      as (s1 & Hrun & Hs1 & _).
    assert (Hm : MapService.map (mapservice (fed (Some p) s)) = Some Leaflet.TheMap)
      by apply Hsf.
    rewrite (ngOnChanges_refreshed _ _ _ Hm Hp) in Hrun. injection Hrun as <-.
    destruct (holds_refreshed others groups cur (fed (Some p) s)
                (GeojsonComponent.geojson (this s)) p Hsf Hh) as [Hold Hnew].
    cbn [fed leaflet] in Hs1, Hold, Hnew.
    assert (Hh1 : Forall (holds (leaflet (refreshed (GeojsonComponent.geojson (this s)) p
                                            (fed (Some p) s)))
                                (Some (length (Leaflet.objects (leaflet s)))))
                         (groups ++ [S (length (Leaflet.objects (leaflet s)))])).
    { apply Forall_app. split.
      - eapply Forall_impl; [exact Hold|]. intros g. apply retains_holds.
      - constructor; [exact Hnew|constructor]. }
    destruct (IH _ _ _ Hs1 Hh1 Hps) as (s' & gs & cur' & Hrun' & Hs' & Hh' & Hlen).
    exists s', (S (length (Leaflet.objects (leaflet s))) :: gs), cur'.
    split.
    { cbn [updates]. unfold bind. rewrite input_geojson_refreshed by (try apply Hs; assumption).
      exact Hrun'. }
    rewrite <- app_assoc in Hs', Hh'.
    split; [exact Hs'|]. split; [exact Hh'|].
    cbn. rewrite Hlen. reflexivity.
Qed.

(** X10: the groups of the earlier refreshes are not emptied.  Over a
    sequence of payload updates that the factory accepts, each group of
    an earlier refresh is still on the map and still holds the layer of
    its refresh, the only layer it ever held, which is no longer on the
    map. *)
Theorem earlier_groups_keep_their_layers (s : Store) (ps : list GeoJSON) (p : GeoJSON) :
  valid s ->
  MapService.map (mapservice s) = Some Leaflet.TheMap ->
  GeojsonComponent.currentGeojson (this s) = None ->
  Forall (λ q, malformed q = false) (ps ++ [p]) ->
  ∃ s' gs g l,
    updates (ps ++ [p]) s = (Normal tt, s') ∧
    onMap (leaflet s') = onMap (leaflet s) ++ gs ++ [g; l] ∧
    length gs = length ps ∧
    Forall (retains (leaflet s')) gs.
Proof.
  intros Hv Hm Hc Hall.
  apply Forall_app in Hall. destruct Hall as [Hps Hp].
  apply Forall_cons in Hp. destruct Hp as [Hp _].
  assert (Hs : settled (onMap (leaflet s)) [] None s).
  { unfold settled. repeat split; try assumption; try apply Hv.
    - cbn. rewrite app_nil_r. reflexivity.
    - discriminate.
    - constructor. }
  destruct (updates_holds _ ps s [] None Hs (Forall_nil_2 _) Hps)
    as (s1 & gs & cur1 & Hrun1 & Hs1 & Hh1 & Hlen).
  cbn [app] in Hs1, Hh1.
  pose proof (settled_fed _ _ _ (Some p) _ Hs1) as Hsf.
  destruct (settled_refresh _ gs cur1 (fed (Some p) s1)
              (GeojsonComponent.geojson (this s1)) p Hsf Hp)
    as (s' & Hrun & Hs' & _).
  assert (Hm1 : MapService.map (mapservice (fed (Some p) s1)) = Some Leaflet.TheMap)
    by apply Hsf.
  pose proof Hrun as Hrun0.
  rewrite (ngOnChanges_refreshed _ _ _ Hm1 Hp) in Hrun0. injection Hrun0 as <-.
  destruct (holds_refreshed _ gs cur1 (fed (Some p) s1)
              (GeojsonComponent.geojson (this s1)) p Hsf Hh1) as [Hold _].
  cbn [fed leaflet] in *.
  set (n := length (Leaflet.objects (leaflet s1))) in *.
  eexists _, gs, (S n), n.
  split.
  { rewrite updates_app. unfold bind at 1. rewrite Hrun1.
    cbn [updates]. unfold bind. rewrite input_geojson_run.
    unfold payload_change in Hrun. rewrite Hrun. reflexivity. }
  destruct Hs' as (_ & _ & _ & HL' & _).
  split; [rewrite HL', <- app_assoc; reflexivity|].
  split; [exact Hlen|exact Hold].
Qed.

(** ** Further facts: what the methods do not touch *)

Lemma set_currentGeojson_same (c : GeojsonComponent.t) :
  GeojsonComponent.set_currentGeojson (GeojsonComponent.currentGeojson c) c = c.
Proof. destruct c. reflexivity. Qed.

(** X11: of the fields of the component, [ngOnChanges] writes
    [currentGeojson] and nothing else, whatever the change and its
    outcome: the inputs, [this.map] and the subject are the ones it
    found, and so is the map of the map service. *)
Theorem ngOnChanges_writes_current_only (c : SimpleChanges) (s : Store) :
  this (snd (ngOnChanges c s))
    = GeojsonComponent.set_currentGeojson
        (GeojsonComponent.currentGeojson (this (snd (ngOnChanges c s)))) (this s) ∧
  MapService.map (mapservice (snd (ngOnChanges c s))) = MapService.map (mapservice s).
Proof.
  destruct c as [[[prev [p|]]|] others];
    try (cbn [ngOnChanges changes_geojson currentValue ret snd];
         rewrite set_currentGeojson_same; split; reflexivity).
  change (ngOnChanges _ s) with (ngOnChanges (payload_change prev p) s).
  destruct (MapService.map (mapservice s)) as [[]|] eqn:Hm.
  - destruct (malformed p) eqn:Hp.
    + rewrite ngOnChanges_malformed by assumption. cbn [snd].
      rewrite this_released, mapservice_released, set_currentGeojson_same. auto.
    + rewrite ngOnChanges_refreshed by assumption. cbn [snd].
      rewrite refreshed_this, refreshed_mapservice. split; [reflexivity|exact Hm].
  - rewrite ngOnChanges_unbound by assumption.
    destruct (GeojsonComponent.currentGeojson (this s));
      [cbn [snd]; rewrite set_currentGeojson_same; auto|].
    destruct (malformed p);
      [cbn [snd]; rewrite set_currentGeojson_same; auto|].
    split; [reflexivity|exact Hm].
Qed.

(** X12: the first change and [ngOnInit] can come in either order.  A
    change without previous value does not read [this.map], so when the
    refresh succeeds, running [ngOnInit] before or after it gives the
    same store. *)
Theorem first_change_commutes_with_ngOnInit (s : Store) (p : GeoJSON) :
  MapService.map (mapservice s) = Some Leaflet.TheMap ->
  malformed p = false ->
  (let! _ := ngOnInit in ngOnChanges (payload_change None p)) s
  = (let! _ := ngOnChanges (payload_change None p) in ngOnInit) s.
Proof.
  intros Hm Hp. unfold bind.
  rewrite (ngOnChanges_bound s None p Hm Hp).
  assert (Hi : ngOnInit s = (Normal tt, snd (ngOnInit s))) by reflexivity.
  rewrite Hi.
  rewrite (ngOnChanges_bound (snd (ngOnInit s)) None p Hm Hp).
  rewrite !reframed_first. unfold released.
  change (GeojsonComponent.currentGeojson (this (snd (ngOnInit s))))
    with (GeojsonComponent.currentGeojson (this s)).
  destruct (GeojsonComponent.currentGeojson (this s)); reflexivity.
Qed.

Lemma released_unread (st : option Any) (b : bool) (lg : option Stamp) (s : Store) :
  released (with_unread st b lg s) = with_unread st b lg (released s).
Proof.
  unfold released.
  change (GeojsonComponent.currentGeojson (this (with_unread st b lg s)))
    with (GeojsonComponent.currentGeojson (this s)).
  destruct (GeojsonComponent.currentGeojson (this s)); reflexivity.
Qed.

Lemma reframed_unread (prev : option GeoJSON) (st : option Any) (b : bool)
    (lg : option Stamp) (s : Store) :
  reframed prev (with_unread st b lg s) = with_unread st b lg (reframed prev s).
Proof.
  unfold reframed, Leaflet.fitBounds.
  cbn [with_unread this mapservice leaflet GeojsonComponent.zoomOnLayer GeojsonComponent.map].
  destruct (defined prev && GeojsonComponent.zoomOnLayer (this s)); [|reflexivity].
  destruct (GeojsonComponent.map (this s)); [|reflexivity].
  destruct (MapService.layerGroup (mapservice s)) as [g|]; [|reflexivity].
  destruct (Leaflet.getBounds (leaflet s) g); reflexivity.
Qed.

(** X13: the [style] and [asCluste] inputs and the [layerGroup] field of
    the component have no effect: no change event reads them.  With
    other values in them, [ngOnChanges] ends the same way and leaves the
    same store, but for these values themselves. *)
Theorem unread_fields_do_not_matter (c : SimpleChanges) (s : Store)
    (st : option Any) (b : bool) (lg : option Stamp) :
  ngOnChanges c (with_unread st b lg s)
  = (fst (ngOnChanges c s), with_unread st b lg (snd (ngOnChanges c s))).
Proof.
  destruct c as [[[prev [p|]]|] others]; try reflexivity.
  change (ngOnChanges _ (with_unread st b lg s))
    with (ngOnChanges (payload_change prev p) (with_unread st b lg s)).
  change (ngOnChanges _ s) with (ngOnChanges (payload_change prev p) s).
  destruct (MapService.map (mapservice s)) as [[]|] eqn:Hm.
  - destruct (malformed p) eqn:Hp.
    + rewrite (ngOnChanges_malformed s prev p Hm Hp).
      rewrite (ngOnChanges_malformed (with_unread st b lg s) prev p Hm Hp).
      rewrite released_unread. reflexivity.
    + rewrite (ngOnChanges_bound s prev p Hm Hp).
      rewrite (ngOnChanges_bound (with_unread st b lg s) prev p Hm Hp).
      rewrite released_unread.
      change (loaded p (with_unread st b lg (released s)))
        with (with_unread st b lg (loaded p (released s))).
      rewrite reframed_unread. reflexivity.
  - rewrite (ngOnChanges_unbound s prev p Hm).
    rewrite (ngOnChanges_unbound (with_unread st b lg s) prev p Hm).
    change (GeojsonComponent.currentGeojson (this (with_unread st b lg s)))
      with (GeojsonComponent.currentGeojson (this s)).
    destruct (GeojsonComponent.currentGeojson (this s)); [reflexivity|].
    destruct (malformed p); reflexivity.
Qed.

(** ** The zoom step, in full *)

(** C6 (amended): with [zoomOnLayer] set, the zoom step depends on the
    previous value of the change, not on whether a payload was seen
    before.  A refresh whose change has no previous value leaves the
    viewport where it was, in every store; that is the case of the first
    payload that the input receives.  A refresh whose change has a
    previous value, in a component that holds the map, moves the
    viewport to the view of the bounds of the group just installed, which
    are the extent of the payload; that is the case of a payload that the
    input receives after another one.  In all, after a refresh that
    succeeds the viewport is the view of the extent of the payload when
    the change has a previous value, [this.map] is bound and the extent
    is computable, and is unchanged otherwise. *)
Theorem zoom_after_first_payload (s : Store) (p : GeoJSON) :
  Leaflet.viewport (Leaflet.surface (leaflet (snd (ngOnChanges (payload_change None p) s))))
    = Leaflet.viewport (Leaflet.surface (leaflet s)) ∧
  (GeojsonComponent.geojson (this s) = None ->
   Leaflet.viewport (Leaflet.surface (leaflet (snd (input_geojson (Some p) s))))
     = Leaflet.viewport (Leaflet.surface (leaflet s))) ∧
  (∀ (prev : GeoJSON) (b : LatLngBounds),
     GeojsonComponent.zoomOnLayer (this s) = true ->
     GeojsonComponent.map (this s) = Some Leaflet.TheMap ->
     MapService.map (mapservice s) = Some Leaflet.TheMap ->
     malformed p = false ->
     extentOf p = Some b ->
     (∃ s' g, ngOnChanges (payload_change (Some prev) p) s = (Normal tt, s') ∧
              MapService.layerGroup (mapservice s') = Some g ∧
              g ∈ onMap (leaflet s') ∧
              Leaflet.getBounds (leaflet s') g = Some b ∧
              Leaflet.viewport (Leaflet.surface (leaflet s')) = viewOf b) ∧
     (GeojsonComponent.geojson (this s) = Some prev ->
      ∃ s' g, input_geojson (Some p) s = (Normal tt, s') ∧
              MapService.layerGroup (mapservice s') = Some g ∧
              g ∈ onMap (leaflet s') ∧
              Leaflet.getBounds (leaflet s') g = Some b ∧
              Leaflet.viewport (Leaflet.surface (leaflet s')) = viewOf b)) ∧
  (∀ prev : option GeoJSON,
     GeojsonComponent.zoomOnLayer (this s) = true ->
     MapService.map (mapservice s) = Some Leaflet.TheMap ->
     malformed p = false ->
     ∃ s', ngOnChanges (payload_change prev p) s = (Normal tt, s') ∧
           Leaflet.viewport (Leaflet.surface (leaflet s'))
             = match prev, GeojsonComponent.map (this s), extentOf p with
               | Some _, Some _, Some b => viewOf b
               | _, _, _ => Leaflet.viewport (Leaflet.surface (leaflet s))
               end).
Proof.
  split; [apply first_change_keeps_viewport|].
  split.
  { intros Hin. rewrite input_geojson_run, Hin.
    apply (first_change_keeps_viewport (fed (Some p) s) p). }
  split.
  - intros prev b Hz Hmap Hm Hp He.
    split; [apply later_change_fits; assumption|].
    intros Hin. rewrite input_geojson_run, Hin.
    apply (later_change_fits (fed (Some p) s) prev p b); assumption.
  - intros prev Hz Hm Hp. exists (refreshed prev p s).
    split; [apply ngOnChanges_refreshed; assumption|].
    rewrite refreshed_viewport, Hz.
    destruct prev as [q|]; cbn [defined andb]; [|reflexivity].
    destruct (GeojsonComponent.map (this s)); [|reflexivity].
    destruct (extentOf p); reflexivity.
Qed.

End Facts.

(** ** The statements on the concrete store *)

#[local] Existing Instance demo.

(** C1, as stated, fails after the second update: the group of the first
    refresh is still on the map beside the group of the second. *)
Lemma two_updates_two_groups :
  fst (updates [three_points; one_point] demo_bound) = Normal tt ∧
  groupsOnMap (leaflet (snd (updates [three_points; one_point] demo_bound))) = [1; 3] ∧
  renderedOnMap (leaflet (snd (updates [three_points; one_point] demo_bound))) = [2] ∧
  ¬ one_group_one_layer one_point (snd (updates [three_points; one_point] demo_bound)).
Proof.
  split; [reflexivity|]. split; [reflexivity|]. split; [reflexivity|].
  intros (g & l & a & cb & Hg & _). vm_compute in Hg. discriminate.
Qed.

Lemma overlay_after_updates_witness :
  ∃ s' gs g l,
    updates ([three_points; one_point] ++ [no_feature]) demo_bound = (Normal tt, s') ∧
    onMap (leaflet s') = onMap (leaflet demo_bound) ++ gs ++ [g; l] ∧
    length gs = 2 ∧
    (g ∉ onMap (leaflet demo_bound) ++ gs) ∧
    Forall (λ x, isGroup (leaflet s') x = true) (gs ++ [g]) ∧
    isRendered (leaflet s') l = true ∧
    MapService.layerGroup (mapservice s') = Some g ∧
    Leaflet.objects (leaflet s') !! g = Some (Leaflet.FeatureGroup [l]) ∧
    GeojsonComponent.currentGeojson (this s') = Some l ∧
    Leaflet.objects (leaflet s') !! l = Some (Leaflet.GeoJsonLayer no_feature None None).
Proof.
  apply (overlay_after_updates demo_bound [three_points; one_point] no_feature).
  - split; [constructor|exact I].
  - reflexivity.
  - reflexivity.
  - repeat constructor.
Defined.

(** C2 fails on the code: with the clustering input [asCluste] set to
    [true], the factory is called with [undefined] for the flag, because
    [loadGeojson] reads [this.asCluster]. *)
Theorem cluster_input_not_forwarded :
  GeojsonComponent.asCluste (this demo_clustered) = true ∧
  fst (loadGeojson three_points demo_clustered) = Normal tt ∧
  GeojsonComponent.currentGeojson (this (snd (loadGeojson three_points demo_clustered)))
    = Some 0 ∧
  Leaflet.objects (leaflet (snd (loadGeojson three_points demo_clustered))) !! 0
    = Some (Leaflet.GeoJsonLayer three_points None None).
Proof. repeat split. Qed.

(** C3, as stated, fails: without map the first refresh is not skipped;
    it makes the layer, publishes it to the subscriber and then throws. *)
Lemma unbound_refresh_throws :
  fst (ngOnChanges (payload_change None three_points) demo_unbound_watched)
    = Throw TypeError ∧
  emissions (snd (ngOnChanges (payload_change None three_points) demo_unbound_watched))
    = [(0, [7])] ∧
  GeojsonComponent.currentGeojson
    (this (snd (ngOnChanges (payload_change None three_points) demo_unbound_watched)))
    = Some 0 ∧
  ngOnChanges (payload_change None three_points) demo_unbound_watched
    ≠ (Normal tt, demo_unbound_watched).
Proof. repeat split. discriminate. Qed.

Lemma refresh_without_map_witness :
  ∃ s', ngOnChanges (payload_change None three_points) demo_unbound_watched
          = (Throw TypeError, s') ∧
        Leaflet.surface (leaflet s') = Leaflet.surface (leaflet demo_unbound_watched) ∧
        GeojsonComponent.currentGeojson (this s') = Some 0 ∧
        Leaflet.objects (leaflet s')
          = [Leaflet.GeoJsonLayer three_points None None; Leaflet.FeatureGroup []] ∧
        MapService.layerGroup (mapservice s') = Some 1 ∧
        emissions s' = [(0, [7])].
Proof.
  apply (refresh_without_map demo_unbound_watched None three_points); reflexivity.
Defined.

(** C4 on the second refresh of the concrete store. *)
Lemma remove_before_add_witness :
  ∃ s' new g steps,
    ngOnChanges (payload_change (Some three_points) one_point) demo_shown = (Normal tt, s') ∧
    history s' = history demo_shown ++ steps ∧
    GeojsonComponent.currentGeojson (this s') = Some new ∧
    MapService.layerGroup (mapservice s') = Some g ∧
    new ∈ onMap (leaflet s') ∧ g ∈ onMap (leaflet s') ∧
    (∃ rest, steps = Leaflet.Map_removeLayer 0 (leaflet demo_shown) :: rest) ∧
    Forall (λ w, 0 ∉ onMap w) steps ∧
    Forall (λ w, ¬ (0 ∈ onMap w ∧ new ∈ onMap w)) (leaflet demo_shown :: steps) ∧
    Forall (λ w, g ∈ onMap w -> 0 ∉ onMap w) (leaflet demo_shown :: steps).
Proof.
  apply (remove_before_add demo_shown (Some three_points) one_point).
  - split; [vm_compute; repeat constructor|reflexivity].
  - reflexivity.
  - reflexivity.
Defined.

(** C5, as stated, fails: after the destruction the subject is not
    stopped, and a later load still reaches the subscriber. *)
Lemma destroyed_channel_still_open :
  Rx.isStopped (GeojsonComponent.geojsonCharged
                  (this (snd (lifecycle OnDestroy demo_watched)))) = false ∧
  Rx.observers (GeojsonComponent.geojsonCharged
                  (this (snd (lifecycle OnDestroy demo_watched)))) = [7] ∧
  emissions (snd (loadGeojson three_points (snd (lifecycle OnDestroy demo_watched))))
    = [(0, [7])].
Proof. repeat split. Qed.

(** C6, as stated, fails: with [zoomOnLayer] set and [this.map] bound,
    a payload that comes after the first one, but right after an
    [undefined] input, is installed and the viewport is not fit to its
    extent. *)
Lemma payload_after_undefined_not_zoomed :
  GeojsonComponent.zoomOnLayer (this demo_ready) = true ∧
  GeojsonComponent.map (this demo_ready) = Some Leaflet.TheMap ∧
  GeojsonComponent.geojson (this demo_ready) = Some three_points ∧
  fst (bind (input_geojson None) (λ _, input_geojson (Some one_point)) demo_ready)
    = Normal tt ∧
  MapService.layerGroup (mapservice (snd
    (bind (input_geojson None) (λ _, input_geojson (Some one_point)) demo_ready)))
    = Some 3 ∧
  Leaflet.getBounds (leaflet (snd
    (bind (input_geojson None) (λ _, input_geojson (Some one_point)) demo_ready))) 3
    = Some (5, 5)%Z ∧
  Leaflet.viewport (Leaflet.surface (leaflet (snd
    (bind (input_geojson None) (λ _, input_geojson (Some one_point)) demo_ready))))
    = (0, 0)%Z ∧
  Leaflet.viewport (Leaflet.surface (leaflet (snd
    (bind (input_geojson None) (λ _, input_geojson (Some one_point)) demo_ready))))
    ≠ viewOf (5, 5)%Z.
Proof. repeat split. discriminate. Qed.

(** C6 (amended) on the concrete store: the first payload leaves the
    viewport, the second one moves it to its extent, and the same
    payload without previous value leaves it. *)
Lemma zoom_after_first_payload_witness :
  Leaflet.viewport (Leaflet.surface
    (leaflet (snd (input_geojson (Some three_points) demo_bound))))
    = Leaflet.viewport (Leaflet.surface (leaflet demo_bound)) ∧
  (∃ s' g, input_geojson (Some one_point) demo_ready = (Normal tt, s') ∧
           MapService.layerGroup (mapservice s') = Some g ∧
           g ∈ onMap (leaflet s') ∧
           Leaflet.getBounds (leaflet s') g = Some (5, 5)%Z ∧
           Leaflet.viewport (Leaflet.surface (leaflet s')) = (5, 5)%Z) ∧
  (∃ s', ngOnChanges (payload_change (Some three_points) one_point) demo_ready
           = (Normal tt, s') ∧
         Leaflet.viewport (Leaflet.surface (leaflet s')) = (5, 5)%Z) ∧
  (∃ s', ngOnChanges (payload_change None one_point) demo_ready = (Normal tt, s') ∧
         Leaflet.viewport (Leaflet.surface (leaflet s')) = (0, 0)%Z).
Proof.
  split; [|split; [|split]].
  - apply (zoom_after_first_payload demo_bound three_points). reflexivity.
  - destruct (zoom_after_first_payload demo_ready one_point) as (_ & _ & Hnext & _).
    apply (Hnext three_points (5, 5)%Z); reflexivity.
  - destruct (zoom_after_first_payload demo_ready one_point) as (_ & _ & _ & Hall).
    apply (Hall (Some three_points)); reflexivity.
  - destruct (zoom_after_first_payload demo_ready one_point) as (_ & _ & _ & Hall).
    apply (Hall None); reflexivity.
Defined.

(** C7 on the concrete store with a subscriber. *)
Lemma one_emission_per_refresh_witness :
  ∃ l, emissions (snd (ngOnChanges (payload_change None three_points) demo_watched))
         = emissions demo_watched ++ [(l, [7])] ∧
       GeojsonComponent.currentGeojson
         (this (snd (ngOnChanges (payload_change None three_points) demo_watched)))
         = Some l ∧
       Leaflet.objects
         (leaflet (snd (ngOnChanges (payload_change None three_points) demo_watched))) !! l
         = Some (Leaflet.GeoJsonLayer three_points None None).
Proof.
  apply (one_emission_per_refresh demo_watched _ None three_points); reflexivity.
Defined.

(** C8 on the concrete store: an empty collection as second payload. *)
Lemma reframe_failure_suppressed_witness :
  ∃ s0 s' g l,
    ngOnChanges (payload_change None no_feature) demo_ready = (Normal tt, s0) ∧
    ngOnChanges (payload_change (Some three_points) no_feature) demo_ready
      = (Normal tt, s') ∧
    s' = logged "no layer in featuregroup" s0 ∧
    console s' = console demo_ready ++ ["no layer in featuregroup"] ∧
    Leaflet.viewport (Leaflet.surface (leaflet s'))
      = Leaflet.viewport (Leaflet.surface (leaflet demo_ready)) ∧
    MapService.layerGroup (mapservice s') = Some g ∧
    GeojsonComponent.currentGeojson (this s') = Some l ∧
    Leaflet.getBounds (leaflet s') g = None ∧
    Leaflet.membersOf (leaflet s') g = [l] ∧
    g ∈ onMap (leaflet s') ∧ l ∈ onMap (leaflet s').
Proof.
  apply (reframe_failure_suppressed demo_ready three_points no_feature); reflexivity.
Defined.

(** C10 on the concrete store: a rejected payload after a first one. *)
Lemma factory_failure_not_atomic_witness :
  0 ∈ onMap (leaflet demo_shown) ∧
  ∃ s', ngOnChanges (payload_change (Some three_points) broken) demo_shown
          = (Throw FactoryError, s') ∧
        leaflet s' = Leaflet.Map_removeLayer 0 (leaflet demo_shown) ∧
        (0 ∉ onMap (leaflet s')) ∧
        emissions s' = emissions demo_shown ∧
        GeojsonComponent.currentGeojson (this s') = Some 0.
Proof.
  split; [vm_compute; repeat constructor|].
  apply (factory_failure_not_atomic demo_shown (Some three_points) broken 0); reflexivity.
Defined.

(** ** The further statements on the concrete store *)

(** X1 on the component after its first payload and before [ngOnInit]:
    the second payload has valid bounds and the viewport stays. *)
Lemma zoom_needs_bound_handle_witness :
  ∃ s' g l,
    ngOnChanges (payload_change (Some three_points) one_point) demo_shown
      = (Normal tt, s') ∧
    Leaflet.viewport (Leaflet.surface (leaflet s'))
      = Leaflet.viewport (Leaflet.surface (leaflet demo_shown)) ∧
    console s' = console demo_shown ++ ["no layer in featuregroup"] ∧
    MapService.layerGroup (mapservice s') = Some g ∧
    GeojsonComponent.currentGeojson (this s') = Some l ∧
    Leaflet.getBounds (leaflet s') g = Some (5, 5)%Z ∧
    g ∈ onMap (leaflet s') ∧ l ∈ onMap (leaflet s').
Proof.
  apply (zoom_needs_bound_handle demo_shown three_points one_point); reflexivity.
Defined.

(** X2 on the component with [zoomOnLayer] unset. *)
Lemma no_zoom_when_disabled_witness :
  Leaflet.viewport (Leaflet.surface (leaflet (snd
    (ngOnChanges (payload_change (Some three_points) one_point)
                 (with_zoomOnLayer false demo_ready)))))
    = Leaflet.viewport (Leaflet.surface (leaflet (with_zoomOnLayer false demo_ready))) ∧
  console (snd (ngOnChanges (payload_change (Some three_points) one_point)
                            (with_zoomOnLayer false demo_ready)))
    = console (with_zoomOnLayer false demo_ready).
Proof.
  apply (no_zoom_when_disabled (payload_change (Some three_points) one_point)
           (with_zoomOnLayer false demo_ready)).
  reflexivity.
Defined.

(** X3 on the component after its first payload. *)
Lemma loadGeojson_never_detaches_witness :
  ∃ s1 s2 new,
    loadGeojson one_point demo_shown = (Normal tt, s1) ∧
    (∀ x, x ∈ onMap (leaflet demo_shown) -> x ∈ onMap (leaflet s1)) ∧
    GeojsonComponent.currentGeojson (this s1) = Some new ∧
    new ≠ 0 ∧
    0 ∈ onMap (leaflet s1) ∧ new ∈ onMap (leaflet s1) ∧
    isRendered (leaflet s1) 0 = true ∧ isRendered (leaflet s1) new = true ∧
    ngOnChanges (payload_change (Some one_point) no_feature) s1 = (Normal tt, s2) ∧
    0 ∈ onMap (leaflet s2) ∧ (new ∉ onMap (leaflet s2)).
Proof.
  apply (loadGeojson_never_detaches demo_shown (Some one_point) one_point no_feature 0).
  - split; [vm_compute; repeat constructor|reflexivity].
  - reflexivity.
  - reflexivity.
  - reflexivity.
  - reflexivity.
  - vm_compute. repeat constructor.
Defined.


(** X5 on the component without map and with a subscriber. *)
Lemma refresh_after_map_arrives_witness :
  ∃ s1 s2 lost g l,
    ngOnChanges (payload_change None three_points) demo_unbound_watched
      = (Throw TypeError, s1) ∧
    ngOnChanges (payload_change (Some three_points) one_point) (map_arrives s1)
      = (Normal tt, s2) ∧
    onMap (leaflet s2) = onMap (leaflet demo_unbound_watched) ++ [g; l] ∧
    MapService.layerGroup (mapservice s2) = Some g ∧
    GeojsonComponent.currentGeojson (this s2) = Some l ∧
    Leaflet.objects (leaflet s2) !! l = Some (Leaflet.GeoJsonLayer one_point None None) ∧
    Leaflet.objects (leaflet s2) !! lost
      = Some (Leaflet.GeoJsonLayer three_points None None) ∧
    (lost ∉ onMap (leaflet s2)) ∧
    emissions s2 = emissions demo_unbound_watched ++ [(lost, [7]); (l, [7])].
Proof.
  apply (refresh_after_map_arrives demo_unbound_watched None (Some three_points)
           three_points one_point).
  - split; [constructor|exact I].
  - reflexivity.
  - reflexivity.
  - reflexivity.
  - reflexivity.
  - reflexivity.
Defined.

(** X6 on the component with a subscriber. *)
Lemma emissions_follow_updates_witness :
  ∃ s' ls,
    updates [three_points; one_point; no_feature] demo_watched = (Normal tt, s') ∧
    emissions s' = emissions demo_watched ++ ((λ l, (l, [7])) <$> ls) ∧
    Forall2 (λ l q, Leaflet.objects (leaflet s') !! l
                    = Some (Leaflet.GeoJsonLayer q None None))
            ls [three_points; one_point; no_feature].
Proof.
  apply (emissions_follow_updates demo_watched [three_points; one_point; no_feature]).
  - reflexivity.
  - reflexivity.
  - repeat constructor.
Defined.

(** X7 on the component just constructed: three points, [ngOnInit], one
    point, an empty collection. *)
Lemma viewport_follows_updates_witness :
  ∃ s',
    bind (input_geojson (Some three_points))
         (λ _, bind ngOnInit (λ _, updates [one_point; no_feature])) demo_bound
      = (Normal tt, s') ∧
    Leaflet.viewport (Leaflet.surface (leaflet s')) = (5, 5)%Z ∧
    console s' = ["no layer in featuregroup"].
Proof.
  apply (viewport_follows_updates demo_bound three_points [one_point; no_feature]).
  - reflexivity.
  - reflexivity.
  - reflexivity.
  - repeat constructor.
Defined.

(** X8 on the component that shows its first payload. *)
Lemma cleared_input_keeps_overlay_witness :
  input_geojson None demo_ready = (Normal tt, fed None demo_ready) ∧
  0 ∈ onMap (leaflet (fed None demo_ready)) ∧
  GeojsonComponent.currentGeojson (this (fed None demo_ready)) = Some 0 ∧
  ∃ s' l,
    input_geojson (Some one_point) (fed None demo_ready) = (Normal tt, s') ∧
    Leaflet.viewport (Leaflet.surface (leaflet s'))
      = Leaflet.viewport (Leaflet.surface (leaflet demo_ready)) ∧
    console s' = console demo_ready ∧
    (0 ∉ onMap (leaflet s')) ∧
    GeojsonComponent.currentGeojson (this s') = Some l ∧
    l ∈ onMap (leaflet s').
Proof.
  apply (cleared_input_keeps_overlay demo_ready one_point 0).
  - split; [vm_compute; repeat constructor|reflexivity].
  - reflexivity.
  - reflexivity.
  - reflexivity.
  - vm_compute. repeat constructor.
Defined.

(** X9 on a life with a failed refresh in it. *)
Lemma host_keeps_valid_witness :
  valid (host [OnChanges (payload_change None three_points); OnInit;
               OnChanges (payload_change (Some three_points) broken);
               OnChanges (payload_change (Some broken) one_point); OnDestroy]
              demo_bound).
Proof.
  apply host_keeps_valid. split; [constructor|exact I].
Defined.

(** X10 on three updates of the component just constructed. *)
Lemma earlier_groups_keep_their_layers_witness :
  ∃ s' gs g l,
    updates ([three_points; one_point] ++ [no_feature]) demo_bound = (Normal tt, s') ∧
    onMap (leaflet s') = onMap (leaflet demo_bound) ++ gs ++ [g; l] ∧
    length gs = 2 ∧
    Forall (retains (leaflet s')) gs.
Proof.
  apply (earlier_groups_keep_their_layers demo_bound [three_points; one_point] no_feature).
  - split; [constructor|exact I].
  - reflexivity.
  - reflexivity.
  - repeat constructor.
Defined.

(** X12 on the component just constructed. *)
Lemma first_change_commutes_with_ngOnInit_witness :
  bind ngOnInit (λ _, ngOnChanges (payload_change None three_points)) demo_bound
  = bind (ngOnChanges (payload_change None three_points)) (λ _, ngOnInit) demo_bound.
Proof.
  apply (first_change_commutes_with_ngOnInit demo_bound three_points); reflexivity.
Defined.
